(** * Material sandbox web samples: parameter wiring between the ImGui panel
      and the Filament engine, and the compiled fragment shader.

    Three source files are embedded:
    - [Legacy]: the self-contained sandbox (the file that carries the
      "BEGIN COMMON" block, one material instance [app.mi]);
    - [Web]: samples/web/sandbox.cpp, which includes ../material_sandbox.h;
    - [Shader]: the GLSL 310 es fragment shader.

    C++ [float]/[double] values are embedded as rationals ([Q]): a decimal
    literal denotes its exact value.  [int] and [uint8_t] are [Z].  Calls into
    the engine are recorded as a list of [EngineCall], in program order. *)

From Stdlib Require Import ZArith QArith Lqa Lia List String Ascii Bool.
From stdpp Require Import base gmap sets.
Import ListNotations.

Open Scope Z_scope.

(** ** Values shared by the two sandboxes *)

(** [filament::sRGBColor] and [math::float3]: three floats. *)
Record float3 := Float3 { x3 : Q; y3 : Q; z3 : Q }.
Definition sRGBColor := float3.

(** [utils::Entity]: an opaque engine handle; a default-constructed entity
    is the null entity, 0. *)
Definition Entity := N.

(** A value lies in the range of its slider. *)
Definition in_range (lo hi v : Q) : Prop := (lo <= v /\ v <= hi)%Q.

Definition in_range3 (lo hi : Q) (v : float3) : Prop :=
  in_range lo hi (x3 v) /\ in_range lo hi (y3 v) /\ in_range lo hi (z3 v).

Inductive Fov := HORIZONTAL | VERTICAL.

(** part_000:50-65, the COMMON constants. *)
Definition MATERIAL_MODEL_UNLIT : Z := 0.
Definition MATERIAL_MODEL_LIT : Z := 1.
Definition MATERIAL_MODEL_SUBSURFACE : Z := 2.
Definition MATERIAL_MODEL_CLOTH : Z := 3.

Definition MATERIAL_UNLIT : Z := 0.
Definition MATERIAL_LIT : Z := 1.
Definition MATERIAL_SUBSURFACE : Z := 2.
Definition MATERIAL_CLOTH : Z := 3.
Definition MATERIAL_TRANSPARENT : Z := 4.
Definition MATERIAL_FADE : Z := 5.
Definition MATERIAL_COUNT : Z := 6.

Definition BLENDING_OPAQUE : Z := 0.
Definition BLENDING_TRANSPARENT : Z := 1.
Definition BLENDING_FADE : Z := 2.

(** <cmath>'s macro, 3.14159265358979323846. *)
Definition M_PI : Q := 314159265358979323846 # 100000000000000000000.

(** A material instance handle.  [AppMi] is [app.mi] of the legacy sandbox;
    [Slot k] is [params.materialInstance[k]] of material_sandbox.h. *)
Inductive MaterialInstance :=
| AppMi
| Slot (k : Z).

(** The argument of [MaterialInstance::setParameter]. *)
Inductive ParamValue :=
| PFloat (v : Q)
| PsRGB (c : sRGBColor).

(** Calls into the engine, as the sources issue them. *)
Inductive EngineCall :=
| setParameter (mi : MaterialInstance) (name : string) (v : ParamValue)
| setMaterialInstanceAt (i : nat) (mi : MaterialInstance)
| setCastShadows (b : bool)
| Scene_addEntity (e : Entity)
| Scene_remove (e : Entity)
| IndirectLight_setIntensity (v : Q)
| IndirectLight_setRotation (angle : Q) (axis : float3)
| LightManager_setColor (light : Entity) (c : sRGBColor)
| LightManager_setIntensity (light : Entity) (v : Q)
| LightManager_setDirection (light : Entity) (d : float3)
| LightManager_setSunAngularRadius (light : Entity) (v : Q)
| LightManager_setSunHaloSize (light : Entity) (v : Q)
| LightManager_setSunHaloFalloff (light : Entity) (v : Q)
| LightManager_build (light : Entity) (c : sRGBColor) (intensity : Q)
    (d : float3) (radius : Q) (shadows : bool)
| Camera_setExposure (aperture shutter iso : Q)
| Camera_setProjection (fov ratio near far : Q) (dir : Fov)
| setTransform (now : Q)
| Scene_setIndirectLight
| Scene_setSkybox
| Camera_lookAt (eye center : float3)
| View_setCamera
| View_setClearColor (r g b a : Q)
| Manipulator_setCamera
| Manipulator_lookAt (eye center : float3)
| createInstance (mi : MaterialInstance).



(** ** The ImGui widgets (external library)

    A widget reads this frame's user interaction and writes the edited value
    through its pointer argument; with no interaction the value is left as it
    is.  The interaction is an argument of the model. *)

Definition clamp (lo hi v : Q) : Q :=
  if Qlt_le_dec v lo then lo else if Qlt_le_dec hi v then hi else v.

(** [ImGui::SliderFloat(label, &v, lo, hi)]: the slider clamps what it writes. *)
Definition SliderFloat (edit : option Q) (v lo hi : Q) : Q :=
  match edit with
  | Some e => clamp lo hi e
  | None => v
  end.

(** [ImGui::SliderFloat3]: three sliders over one range. *)
Definition SliderFloat3 (edit : option float3) (v : float3) (lo hi : Q) : float3 :=
  match edit with
  | Some e => Float3 (clamp lo hi (x3 e)) (clamp lo hi (y3 e)) (clamp lo hi (z3 e))
  | None => v
  end.

(** [ImGui::SliderAngle(label, &rad)]: a slider in degrees over the default
    range -360..360, written back in radians. *)
Definition SliderAngle (edit : option Q) (rad : Q) : Q :=
  match edit with
  | Some deg => (clamp (-360) 360 deg * (2 * M_PI) / 360)%Q
  | None => rad
  end.

Definition ColorEdit3 (edit : option sRGBColor) (c : sRGBColor) : sRGBColor :=
  match edit with Some e => e | None => c end.

Definition Checkbox (edit : option bool) (b : bool) : bool :=
  match edit with Some e => e | None => b end.

(** The items of a combo are given as one zero-separated string that ends
    with an empty item. *)
Definition NUL : ascii := Ascii.zero.

Fixpoint combo_items_aux (s : string) (cur : string) : list string :=
  match s with
  | EmptyString => []
  | String c rest =>
      if Ascii.eqb c NUL then
        match cur with
        | EmptyString => []
        | _ => cur :: combo_items_aux rest EmptyString
        end
      else combo_items_aux rest (cur ++ String c EmptyString)%string
  end.

Definition combo_items (s : string) : list string := combo_items_aux s EmptyString.

(** [ImGui::Combo(label, &current, items)]: a pick is the index of one of
    the items. *)
Definition Combo (pick : option nat) (current : Z) (items : string) : Z :=
  match pick with
  | Some i => if (i <? List.length (combo_items items))%nat then Z.of_nat i else current
  | None => current
  end.

(** "unlit\0lit\0subsurface\0cloth\0\0" and "opaque\0transparent\0fade\0\0". *)
Definition model_items : string :=
  ("unlit" ++ String NUL ("lit" ++ String NUL ("subsurface" ++ String NUL
     ("cloth" ++ String NUL (String NUL EmptyString)))))%string.
Definition blending_items : string :=
  ("opaque" ++ String NUL ("transparent" ++ String NUL
     ("fade" ++ String NUL (String NUL EmptyString))))%string.

(** What the user does to the "Parameters" window during one frame: which
    collapsing headers are open and the edit, if any, made to each widget. *)
Record UiInput := {
  open_Material : bool;
  open_Object : bool;
  open_Light : bool;
  pick_model : option nat;
  pick_blending : option nat;
  edit_baseColor : option sRGBColor;
  edit_alpha : option Q;
  edit_roughness : option Q;
  edit_metallic : option Q;
  edit_reflectance : option Q;
  edit_clearCoat : option Q;
  edit_clearCoatRoughness : option Q;
  edit_anisotropy : option Q;
  edit_thickness : option Q;
  edit_subsurfacePower : option Q;
  edit_subsurfaceColor : option sRGBColor;
  edit_sheenColor : option sRGBColor;
  edit_castShadows : option bool;
  edit_enabled : option bool;
  edit_lightColor : option sRGBColor;
  edit_lux : option Q;
  edit_direction : option float3;
  edit_sunSize : option Q;
  edit_haloSize : option Q;
  edit_haloFalloff : option Q;
  edit_ibl : option Q;
  edit_iblRotation : option Q
}.

(** A frame in which the user edits nothing, whichever headers are open. *)
Definition quiet (material object light : bool) : UiInput :=
  {| open_Material := material; open_Object := object; open_Light := light;
     pick_model := None; pick_blending := None; edit_baseColor := None;
     edit_alpha := None; edit_roughness := None; edit_metallic := None;
     edit_reflectance := None; edit_clearCoat := None;
     edit_clearCoatRoughness := None; edit_anisotropy := None;
     edit_thickness := None; edit_subsurfacePower := None;
     edit_subsurfaceColor := None; edit_sheenColor := None;
     edit_castShadows := None; edit_enabled := None; edit_lightColor := None;
     edit_lux := None; edit_direction := None; edit_sunSize := None;
     edit_haloSize := None; edit_haloFalloff := None; edit_ibl := None;
     edit_iblRotation := None |}.

(** The headers in their initial state: only "Material" is open. *)
Definition idle : UiInput := quiet true false false.

(** The user picks in the two combos and may drag the alpha slider. *)
Definition pick (model blending : option nat) (a : option Q) : UiInput :=
  {| open_Material := true; open_Object := false; open_Light := false;
     pick_model := model; pick_blending := blending; edit_baseColor := None;
     edit_alpha := a; edit_roughness := None; edit_metallic := None;
     edit_reflectance := None; edit_clearCoat := None;
     edit_clearCoatRoughness := None; edit_anisotropy := None;
     edit_thickness := None; edit_subsurfacePower := None;
     edit_subsurfaceColor := None; edit_sheenColor := None;
     edit_castShadows := None; edit_enabled := None; edit_lightColor := None;
     edit_lux := None; edit_direction := None; edit_sunSize := None;
     edit_haloSize := None; edit_haloFalloff := None; edit_ibl := None;
     edit_iblRotation := None |}.

(** The mapping of material model and blending to a material slot, in the
    words of the spec's glossary ("selected via UI and mapped to external
    engine material instances"): each of unlit, subsurface and cloth has a
    slot of its own, and lit has one slot per blending mode. *)
Definition claimed_material (model blending : Z) : option Z :=
  if model =? MATERIAL_MODEL_UNLIT then Some MATERIAL_UNLIT
  else if model =? MATERIAL_MODEL_SUBSURFACE then Some MATERIAL_SUBSURFACE
  else if model =? MATERIAL_MODEL_CLOTH then Some MATERIAL_CLOTH
  else if model =? MATERIAL_MODEL_LIT then
    if blending =? BLENDING_OPAQUE then Some MATERIAL_LIT
    else if blending =? BLENDING_TRANSPARENT then Some MATERIAL_TRANSPARENT
    else if blending =? BLENDING_FADE then Some MATERIAL_FADE
    else None
  else None.

(** The fields of the record as section 3 of the spec lists them: color,
    roughness, metallic, reflectance, the clear-coat terms, the subsurface
    terms, sheen color, light direction, intensity and angle, IBL intensity
    and rotation, and the toggles for shadows and for the directional
    light. *)
Record ListedFields := {
  listed_color : sRGBColor;
  listed_roughness : Q;
  listed_metallic : Q;
  listed_reflectance : Q;
  listed_clearCoat : Q;
  listed_clearCoatRoughness : Q;
  listed_thickness : Q;
  listed_subsurfacePower : Q;
  listed_subsurfaceColor : sRGBColor;
  listed_sheenColor : sRGBColor;
  listed_lightDirection : float3;
  listed_lightIntensity : Q;
  listed_sunAngularRadius : Q;
  listed_iblIntensity : Q;
  listed_iblRotation : Q;
  listed_castShadows : bool;
  listed_directionalLight : bool
}.

(** The fields of the COMMON block that the list leaves out. *)
Record UnlistedFields := {
  unlisted_alpha : Q;
  unlisted_anisotropy : Q;
  unlisted_currentMaterialModel : Z;
  unlisted_currentBlending : Z;
  unlisted_lightColor : sRGBColor;
  unlisted_sunHaloSize : Q;
  unlisted_sunHaloFalloff : Q
}.

(** ** The camera projection of [animate] (the same text in both files)

    [double(width) / height] is the binary64 rounding [rnd] of the exact
    quotient; [expr.mul] leaves a division by zero without a result. *)

Record Viewport := { width : Z; height : Z }.

Definition UINT32_MAX : Z := 4294967295.

Definition fdiv (a b : Q) : option Q :=
  if Qeq_bool b 0 then None else Some (a / b)%Q.

Definition set_projection (rnd : Q -> Q) (vp : Viewport) : option EngineCall :=
  match fdiv (inject_Z (width vp)) (inject_Z (height vp)) with
  | None => None
  | Some q =>
      let ratio := rnd q in
      Some (Camera_setProjection 45 ratio (1 # 10) 50
              (if Qlt_le_dec ratio 1 then HORIZONTAL else VERTICAL))
  end.

(** [static double previous = now;] is initialised by the first call only. *)
Definition init_previous (previous : option Q) (now : Q) : option Q :=
  match previous with
  | None => Some now
  | Some v => Some v
  end.

(** What the engine hands out while [setup] runs. *)
Record Engine := {
  mesh_renderable : Entity;
  created_entity : Entity;
  created_camera : positive;
  created_light : Entity;
  primitiveCount : nat
}.

(** ** The frame loop

    Modelled from the spec: [filaweb::Application::run] (filaweb.cpp is not
    among the sources; only the calls [run(setup, animate, ui)] are).  The
    spec: "Single-threaded, cooperatively driven by an external engine's frame
    callback (setup once, then animate/draw-UI every frame)".  The engine's
    scene is kept as the set of entities added and not removed. *)

Inductive Callback := CbSetup | CbAnimate | CbUi.


Record Frame := { frame_viewport : Viewport; frame_now : Q; frame_input : UiInput }.

Definition scene_apply (s : gset Entity) (c : EngineCall) : gset Entity :=
  match c with
  | Scene_addEntity e => {[ e ]} ∪ s
  | Scene_remove e => s ∖ {[ e ]}
  | _ => s
  end.

Definition scene_run (calls : list EngineCall) (s : gset Entity) : gset Entity :=
  fold_left scene_apply calls s.

Definition is_scene_edit (c : EngineCall) : bool :=
  match c with
  | Scene_addEntity _ | Scene_remove _ => true
  | _ => false
  end.

Section Run.
Context {App : Type}.
Variable setup : App -> App * list EngineCall.
Variable animate : Viewport -> Q -> option Q -> option (option Q * list EngineCall).
Variable ui : UiInput -> App -> App * list EngineCall.

Record World := {
  world_app : App;
  world_scene : gset Entity;
  world_previous : option Q;
  world_log : list Callback
}.

Definition run_setup (app : App) : World :=
  let '(app', calls) := setup app in
  {| world_app := app'; world_scene := scene_run calls ∅;
     world_previous := None; world_log := [CbSetup] |}.

Definition run_frame (f : Frame) (w : World) : option World :=
  match animate (frame_viewport f) (frame_now f) (world_previous w) with
  | None => None
  | Some (previous, calls_a) =>
      let '(app', calls_u) := ui (frame_input f) (world_app w) in
      Some {| world_app := app';
              world_scene := scene_run (calls_a ++ calls_u) (world_scene w);
              world_previous := previous;
              world_log := world_log w ++ [CbAnimate; CbUi] |}
  end.

Fixpoint run_frames (fs : list Frame) (w : World) : option World :=
  match fs with
  | [] => Some w
  | f :: rest =>
      match run_frame f w with
      | None => None
      | Some w' => run_frames rest w'
      end
  end.

Definition run (app : App) (fs : list Frame) : option World :=
  run_frames fs (run_setup app).
End Run.

Arguments World : clear implicits.

(** Sample inputs used to run the definitions. *)
Definition engine0 : Engine :=
  {| mesh_renderable := 1%N; created_entity := 2%N; created_camera := 1%positive;
     created_light := 2%N; primitiveCount := 2 |}.

(** The user opens "Light", unticks "enabled", and drags roughness and lux
    past the ends of their sliders. *)
Definition overdrag : UiInput :=
  {| open_Material := true; open_Object := false; open_Light := true;
     pick_model := None; pick_blending := None; edit_baseColor := None;
     edit_alpha := None; edit_roughness := Some 5%Q; edit_metallic := None;
     edit_reflectance := None; edit_clearCoat := None;
     edit_clearCoatRoughness := None; edit_anisotropy := None;
     edit_thickness := None; edit_subsurfacePower := None;
     edit_subsurfaceColor := None; edit_sheenColor := None;
     edit_castShadows := None; edit_enabled := Some false; edit_lightColor := None;
     edit_lux := Some 200000%Q; edit_direction := None; edit_sunSize := None;
     edit_haloSize := None; edit_haloFalloff := None; edit_ibl := None;
     edit_iblRotation := None |}.

(** One frame of an 800 by 600 viewport with the edits of [overdrag]; a
    rounding that rounds nothing. *)
Definition frame0 : Frame :=
  {| frame_viewport := {| width := 800; height := 600 |};
     frame_now := 0%Q; frame_input := overdrag |}.

Definition rnd_exact (q : Q) : Q := q.

(** ** The self-contained sandbox (part_000) *)

Module Legacy.

(** part_000:67-92. *)
Record SandboxParameters := {
  color : sRGBColor;
  alpha : Q;
  roughness : Q;
  metallic : Q;
  reflectance : Q;
  clearCoat : Q;
  clearCoatRoughness : Q;
  anisotropy : Q;
  thickness : Q;
  subsurfacePower : Q;
  subsurfaceColor : sRGBColor;
  sheenColor : sRGBColor;
  currentMaterialModel : Z;
  currentBlending : Z;
  castShadows : bool;
  lightColor : sRGBColor;
  lightIntensity : Q;
  lightDirection : float3;
  iblIntensity : Q;
  iblRotation : Q;
  sunHaloSize : Q;
  sunHaloFalloff : Q;
  sunAngularRadius : Q;
  directional_light_enabled : bool
}.

(** The default member initialisers. *)
Definition defaults : SandboxParameters := {|
  color := Float3 (69 # 100) (69 # 100) (69 # 100);
  alpha := 1;
  roughness := 6 # 10;
  metallic := 0;
  reflectance := 5 # 10;
  clearCoat := 0;
  clearCoatRoughness := 0;
  anisotropy := 0;
  thickness := 1;
  subsurfacePower := 12234 # 1000;
  subsurfaceColor := Float3 0 0 0;
  sheenColor := Float3 (83 # 100) 0 0;
  currentMaterialModel := MATERIAL_MODEL_LIT;
  currentBlending := BLENDING_OPAQUE;
  castShadows := true;
  lightColor := Float3 (98 # 100) (92 # 100) (89 # 100);
  lightIntensity := 110000;
  lightDirection := Float3 (6 # 10) (-1) (-8 # 10);
  iblIntensity := 30000;
  iblRotation := 0;
  sunHaloSize := 10;
  sunHaloFalloff := 80;
  sunAngularRadius := 19 # 10;
  directional_light_enabled := true
|}.

(** part_000:96-103.  The handles are null until [setup] has run. *)
Record SandboxApp := {
  filamesh : option Entity;
  mat : bool;
  mi : option MaterialInstance;
  cam : option positive;
  sun : option Entity;
  params : SandboxParameters
}.

(** [static SandboxApp app;] *)
Definition app0 : SandboxApp :=
  {| filamesh := None; mat := false; mi := None; cam := None; sun := None;
     params := defaults |}.

(** part_000:111-158.  The sun is built once, from literals. *)
Definition setup (e : Engine) (app : SandboxApp) : SandboxApp * list EngineCall :=
  ({| filamesh := Some (mesh_renderable e);
      mat := true;
      mi := Some AppMi;
      cam := Some (created_camera e);
      sun := Some (created_entity e);
      params := params app |},
   [ createInstance AppMi;
     setParameter AppMi "clearCoat" (PFloat 0);
     Scene_addEntity (mesh_renderable e);
     LightManager_build (created_entity e)
       (Float3 (98 # 100) (92 # 100) (89 # 100)) 110000
       (Float3 (7 # 10) (-1) (-8 # 10)) (12 # 10) true;
     Scene_addEntity (created_entity e);
     Scene_setIndirectLight;
     Scene_setSkybox;
     Camera_setExposure 16 (1 / 125) 100;
     Camera_lookAt (Float3 0 1 0) (Float3 0 (105 # 100) (-1));
     View_setCamera;
     View_setClearColor (1 # 10) (125 # 1000) (25 # 100) 1 ]).

(** part_000:160-175. *)
Definition animate (rnd : Q -> Q) (vp : Viewport) (now : Q) (previous : option Q)
  : option (option Q * list EngineCall) :=
  match set_projection rnd vp with
  | None => None
  | Some proj => Some (init_previous previous now, [proj; setTransform now])
  end.

(** part_000:182-235, the widgets that edit the record.  (The "Debug" header,
    lines 237-253, edits properties of the engine's debug registry in place
    and touches neither the record nor a setter.) *)
Definition ui_panel (i : UiInput) (p : SandboxParameters) : SandboxParameters :=
  let material := open_Material i in
  let model :=
    if material then Combo (pick_model i) (currentMaterialModel p) model_items
    else currentMaterialModel p in
  let blending :=
    if material && (model =? MATERIAL_MODEL_LIT)
    then Combo (pick_blending i) (currentBlending p) blending_items
    else currentBlending p in
  let shaded := material && (model >? MATERIAL_MODEL_UNLIT) in
  let not_cloth := negb (model =? MATERIAL_MODEL_CLOTH) in
  let plain := not_cloth && negb (model =? MATERIAL_MODEL_SUBSURFACE) in
  let subsurface := model =? MATERIAL_MODEL_SUBSURFACE in
  let cloth := model =? MATERIAL_MODEL_CLOTH in
  let light := open_Light i in
  {| color := if material then ColorEdit3 (edit_baseColor i) (color p) else color p;
     alpha :=
       if shaded && ((blending =? BLENDING_TRANSPARENT) || (blending =? BLENDING_FADE))
       then SliderFloat (edit_alpha i) (alpha p) 0 1 else alpha p;
     roughness :=
       if shaded then SliderFloat (edit_roughness i) (roughness p) 0 1 else roughness p;
     metallic :=
       if shaded && not_cloth
       then SliderFloat (edit_metallic i) (metallic p) 0 1 else metallic p;
     reflectance :=
       if shaded && not_cloth
       then SliderFloat (edit_reflectance i) (reflectance p) 0 1 else reflectance p;
     clearCoat :=
       if shaded && plain
       then SliderFloat (edit_clearCoat i) (clearCoat p) 0 1 else clearCoat p;
     clearCoatRoughness :=
       if shaded && plain
       then SliderFloat (edit_clearCoatRoughness i) (clearCoatRoughness p) 0 1
       else clearCoatRoughness p;
     anisotropy :=
       if shaded && plain
       then SliderFloat (edit_anisotropy i) (anisotropy p) (-1) 1 else anisotropy p;
     thickness :=
       if shaded && subsurface
       then SliderFloat (edit_thickness i) (thickness p) 0 1 else thickness p;
     subsurfacePower :=
       if shaded && subsurface
       then SliderFloat (edit_subsurfacePower i) (subsurfacePower p) 1 24
       else subsurfacePower p;
     subsurfaceColor :=
       if shaded && (subsurface || cloth)
       then ColorEdit3 (edit_subsurfaceColor i) (subsurfaceColor p)
       else subsurfaceColor p;
     sheenColor :=
       if shaded && cloth
       then ColorEdit3 (edit_sheenColor i) (sheenColor p) else sheenColor p;
     currentMaterialModel := model;
     currentBlending := blending;
     castShadows :=
       if open_Object i then Checkbox (edit_castShadows i) (castShadows p)
       else castShadows p;
     lightColor :=
       if light then ColorEdit3 (edit_lightColor i) (lightColor p) else lightColor p;
     lightIntensity :=
       if light then SliderFloat (edit_lux i) (lightIntensity p) 0 150000
       else lightIntensity p;
     lightDirection :=
       if light then SliderFloat3 (edit_direction i) (lightDirection p) (-1) 1
       else lightDirection p;
     iblIntensity :=
       if light then SliderFloat (edit_ibl i) (iblIntensity p) 0 50000
       else iblIntensity p;
     iblRotation :=
       if light then SliderAngle (edit_iblRotation i) (iblRotation p)
       else iblRotation p;
     sunHaloSize :=
       if light then SliderFloat (edit_haloSize i) (sunHaloSize p) (101 # 100) 40
       else sunHaloSize p;
     sunHaloFalloff :=
       if light then SliderFloat (edit_haloFalloff i) (sunHaloFalloff p) 0 2048
       else sunHaloFalloff p;
     sunAngularRadius :=
       if light then SliderFloat (edit_sunSize i) (sunAngularRadius p) (1 # 10) 10
       else sunAngularRadius p;
     directional_light_enabled :=
       if light then Checkbox (edit_enabled i) (directional_light_enabled p)
       else directional_light_enabled p |}.

(** part_000:257-261: the index that is computed, and then not used. *)
Definition material_index (p : SandboxParameters) : Z :=
  let material := currentMaterialModel p in
  if material =? MATERIAL_MODEL_LIT then
    let material :=
      if currentBlending p =? BLENDING_TRANSPARENT then MATERIAL_TRANSPARENT
      else material in
    if currentBlending p =? BLENDING_FADE then MATERIAL_FADE else material
  else material.

(** part_000:262: [materialInstance = app.mi; // params.materialInstance[material]]. *)
Definition selected_instance (p : SandboxParameters) : MaterialInstance := AppMi.

(** part_000:263-292. *)
Definition push_material (materialInstance : MaterialInstance)
    (p : SandboxParameters) : list EngineCall :=
  (if currentMaterialModel p =? MATERIAL_MODEL_UNLIT then
     [ setParameter materialInstance "baseColor" (PsRGB (color p)) ]
   else []) ++
  (if currentMaterialModel p =? MATERIAL_MODEL_LIT then
     [ setParameter materialInstance "baseColor" (PsRGB (color p));
       setParameter materialInstance "roughness" (PFloat (roughness p));
       setParameter materialInstance "metallic" (PFloat (metallic p));
       setParameter materialInstance "reflectance" (PFloat (reflectance p));
       setParameter materialInstance "clearCoat" (PFloat (clearCoat p));
       setParameter materialInstance "clearCoatRoughness"
         (PFloat (clearCoatRoughness p));
       setParameter materialInstance "anisotropy" (PFloat (anisotropy p)) ] ++
     (if negb (currentBlending p =? BLENDING_OPAQUE) then
        [ setParameter materialInstance "alpha" (PFloat (alpha p)) ]
      else [])
   else []) ++
  (if currentMaterialModel p =? MATERIAL_MODEL_SUBSURFACE then
     [ setParameter materialInstance "baseColor" (PsRGB (color p));
       setParameter materialInstance "roughness" (PFloat (roughness p));
       setParameter materialInstance "metallic" (PFloat (metallic p));
       setParameter materialInstance "reflectance" (PFloat (reflectance p));
       setParameter materialInstance "thickness" (PFloat (thickness p));
       setParameter materialInstance "subsurfacePower" (PFloat (subsurfacePower p));
       setParameter materialInstance "subsurfaceColor" (PsRGB (subsurfaceColor p)) ]
   else []) ++
  (if currentMaterialModel p =? MATERIAL_MODEL_CLOTH then
     [ setParameter materialInstance "baseColor" (PsRGB (color p));
       setParameter materialInstance "roughness" (PFloat (roughness p));
       setParameter materialInstance "sheenColor" (PsRGB (sheenColor p));
       setParameter materialInstance "subsurfaceColor" (PsRGB (subsurfaceColor p)) ]
   else []).

(** part_000:177-293. *)
Definition ui (i : UiInput) (p : SandboxParameters)
  : SandboxParameters * list EngineCall :=
  let p' := ui_panel i p in
  (p', push_material (selected_instance p') p').

(** The records the program can hold: the static initialiser, then any
    number of [ui] frames ([setup] and [animate] do not write the record). *)
Inductive reachable : SandboxParameters -> Prop :=
| reach_setup e : reachable (params (fst (setup e app0)))
| reach_ui i p : reachable p -> reachable (fst (ui i p)).

(** The callbacks act on [app]; [ui] works on [app.params]. *)
Definition ui_app (i : UiInput) (app : SandboxApp) : SandboxApp * list EngineCall :=
  let '(p', calls) := ui i (params app) in
  ({| filamesh := filamesh app; mat := mat app; mi := mi app; cam := cam app;
      sun := sun app; params := p' |}, calls).

(** part_000:297-299. *)
Definition launch (e : Engine) (rnd : Q -> Q) (fs : list Frame)
  : option (World SandboxApp) :=
  run (setup e) (animate rnd) ui_app app0 fs.

(** The ranges the sliders impose, field by field. *)
Definition slider_ranges (p : SandboxParameters) : Prop :=
  in_range 0 1 (alpha p) /\
  in_range 0 1 (roughness p) /\
  in_range 0 1 (metallic p) /\
  in_range 0 1 (reflectance p) /\
  in_range 0 1 (clearCoat p) /\
  in_range 0 1 (clearCoatRoughness p) /\
  in_range (-1) 1 (anisotropy p) /\
  in_range 0 1 (thickness p) /\
  in_range 1 24 (subsurfacePower p) /\
  in_range 0 150000 (lightIntensity p) /\
  in_range3 (-1) 1 (lightDirection p) /\
  in_range (1 # 10) 10 (sunAngularRadius p) /\
  in_range (101 # 100) 40 (sunHaloSize p) /\
  in_range 0 2048 (sunHaloFalloff p) /\
  in_range 0 50000 (iblIntensity p).

(** The ranges the two combos impose. *)
Definition combo_ranges (p : SandboxParameters) : Prop :=
  0 <= currentMaterialModel p <= 3 /\ 0 <= currentBlending p <= 2.

(** A record that no combo can produce: the defaults with material model 7. *)
Definition off_menu : SandboxParameters := {|
  color := color defaults; alpha := alpha defaults;
  roughness := roughness defaults; metallic := metallic defaults;
  reflectance := reflectance defaults; clearCoat := clearCoat defaults;
  clearCoatRoughness := clearCoatRoughness defaults;
  anisotropy := anisotropy defaults; thickness := thickness defaults;
  subsurfacePower := subsurfacePower defaults;
  subsurfaceColor := subsurfaceColor defaults; sheenColor := sheenColor defaults;
  currentMaterialModel := 7;
  currentBlending := currentBlending defaults; castShadows := castShadows defaults;
  lightColor := lightColor defaults; lightIntensity := lightIntensity defaults;
  lightDirection := lightDirection defaults; iblIntensity := iblIntensity defaults;
  iblRotation := iblRotation defaults; sunHaloSize := sunHaloSize defaults;
  sunHaloFalloff := sunHaloFalloff defaults;
  sunAngularRadius := sunAngularRadius defaults;
  directional_light_enabled := directional_light_enabled defaults
|}.

Definition listed (p : SandboxParameters) : ListedFields := {|
  listed_color := color p;
  listed_roughness := roughness p;
  listed_metallic := metallic p;
  listed_reflectance := reflectance p;
  listed_clearCoat := clearCoat p;
  listed_clearCoatRoughness := clearCoatRoughness p;
  listed_thickness := thickness p;
  listed_subsurfacePower := subsurfacePower p;
  listed_subsurfaceColor := subsurfaceColor p;
  listed_sheenColor := sheenColor p;
  listed_lightDirection := lightDirection p;
  listed_lightIntensity := lightIntensity p;
  listed_sunAngularRadius := sunAngularRadius p;
  listed_iblIntensity := iblIntensity p;
  listed_iblRotation := iblRotation p;
  listed_castShadows := castShadows p;
  listed_directionalLight := directional_light_enabled p
|}.

Definition unlisted (p : SandboxParameters) : UnlistedFields := {|
  unlisted_alpha := alpha p;
  unlisted_anisotropy := anisotropy p;
  unlisted_currentMaterialModel := currentMaterialModel p;
  unlisted_currentBlending := currentBlending p;
  unlisted_lightColor := lightColor p;
  unlisted_sunHaloSize := sunHaloSize p;
  unlisted_sunHaloFalloff := sunHaloFalloff p
|}.

End Legacy.

(** ** The web sandbox (samples/web/sandbox.cpp) *)

Module Web.

(** The record of ../material_sandbox.h.  The header is not among the
    sources: the fields and default initialisers are those of the COMMON
    block (part_000:67-92), with [directionalLightEnabled] as sandbox.cpp
    spells it, and the two further fields sandbox.cpp reads, [light] and
    [hasDirectionalLight].  [params.materialInstance[k]] is the handle
    [Slot k]. *)
Record SandboxParameters := {
  color : sRGBColor;
  alpha : Q;
  roughness : Q;
  metallic : Q;
  reflectance : Q;
  clearCoat : Q;
  clearCoatRoughness : Q;
  anisotropy : Q;
  thickness : Q;
  subsurfacePower : Q;
  subsurfaceColor : sRGBColor;
  sheenColor : sRGBColor;
  currentMaterialModel : Z;
  currentBlending : Z;
  castShadows : bool;
  lightColor : sRGBColor;
  lightIntensity : Q;
  lightDirection : float3;
  iblIntensity : Q;
  iblRotation : Q;
  sunHaloSize : Q;
  sunHaloFalloff : Q;
  sunAngularRadius : Q;
  directionalLightEnabled : bool;
  light : Entity;
  hasDirectionalLight : bool
}.

Definition defaults : SandboxParameters := {|
  color := Float3 (69 # 100) (69 # 100) (69 # 100);
  alpha := 1;
  roughness := 6 # 10;
  metallic := 0;
  reflectance := 5 # 10;
  clearCoat := 0;
  clearCoatRoughness := 0;
  anisotropy := 0;
  thickness := 1;
  subsurfacePower := 12234 # 1000;
  subsurfaceColor := Float3 0 0 0;
  sheenColor := Float3 (83 # 100) 0 0;
  currentMaterialModel := MATERIAL_MODEL_LIT;
  currentBlending := BLENDING_OPAQUE;
  castShadows := true;
  lightColor := Float3 (98 # 100) (92 # 100) (89 # 100);
  lightIntensity := 110000;
  lightDirection := Float3 (6 # 10) (-1) (-8 # 10);
  iblIntensity := 30000;
  iblRotation := 0;
  sunHaloSize := 10;
  sunHaloFalloff := 80;
  sunAngularRadius := 19 # 10;
  directionalLightEnabled := true;
  light := 0%N;
  hasDirectionalLight := true
|}.

(** sandbox.cpp:48-54. *)
Record SandboxApp := {
  filamesh : option Entity;
  cam : option positive;
  params : SandboxParameters;
  skylight : bool;
  scene : bool
}.

Definition app0 : SandboxApp :=
  {| filamesh := None; cam := None; params := defaults; skylight := false;
     scene := false |}.

(** sandbox.cpp:62-74, the assignments to [app.params]. *)
Definition setup_params (p : SandboxParameters) : SandboxParameters := {|
  color := Float3 (158 / 255) (118 / 255) (74 / 255);
  alpha := alpha p;
  roughness := roughness p;
  metallic := 25 # 100;
  reflectance := 75 # 100;
  clearCoat := 7 # 10;
  clearCoatRoughness := clearCoatRoughness p;
  anisotropy := anisotropy p;
  thickness := thickness p;
  subsurfacePower := subsurfacePower p;
  subsurfaceColor := subsurfaceColor p;
  sheenColor := sheenColor p;
  currentMaterialModel := currentMaterialModel p;
  currentBlending := currentBlending p;
  castShadows := castShadows p;
  lightColor := lightColor p;
  lightIntensity := lightIntensity p;
  lightDirection := Float3 0 0 (-1);
  iblIntensity := 10000;
  iblRotation := M_PI;
  sunHaloSize := sunHaloSize p;
  sunHaloFalloff := sunHaloFalloff p;
  sunAngularRadius := sunAngularRadius p;
  directionalLightEnabled := directionalLightEnabled p;
  light := light p;
  hasDirectionalLight := hasDirectionalLight p
|}.

Definition set_light (l : Entity) (p : SandboxParameters) : SandboxParameters := {|
  color := color p; alpha := alpha p; roughness := roughness p;
  metallic := metallic p; reflectance := reflectance p; clearCoat := clearCoat p;
  clearCoatRoughness := clearCoatRoughness p; anisotropy := anisotropy p;
  thickness := thickness p; subsurfacePower := subsurfacePower p;
  subsurfaceColor := subsurfaceColor p; sheenColor := sheenColor p;
  currentMaterialModel := currentMaterialModel p;
  currentBlending := currentBlending p; castShadows := castShadows p;
  lightColor := lightColor p; lightIntensity := lightIntensity p;
  lightDirection := lightDirection p; iblIntensity := iblIntensity p;
  iblRotation := iblRotation p; sunHaloSize := sunHaloSize p;
  sunHaloFalloff := sunHaloFalloff p; sunAngularRadius := sunAngularRadius p;
  directionalLightEnabled := directionalLightEnabled p;
  light := l;
  hasDirectionalLight := hasDirectionalLight p
|}.

Definition set_hasDirectionalLight (b : bool) (p : SandboxParameters)
  : SandboxParameters := {|
  color := color p; alpha := alpha p; roughness := roughness p;
  metallic := metallic p; reflectance := reflectance p; clearCoat := clearCoat p;
  clearCoatRoughness := clearCoatRoughness p; anisotropy := anisotropy p;
  thickness := thickness p; subsurfacePower := subsurfacePower p;
  subsurfaceColor := subsurfaceColor p; sheenColor := sheenColor p;
  currentMaterialModel := currentMaterialModel p;
  currentBlending := currentBlending p; castShadows := castShadows p;
  lightColor := lightColor p; lightIntensity := lightIntensity p;
  lightDirection := lightDirection p; iblIntensity := iblIntensity p;
  iblRotation := iblRotation p; sunHaloSize := sunHaloSize p;
  sunHaloFalloff := sunHaloFalloff p; sunAngularRadius := sunAngularRadius p;
  directionalLightEnabled := directionalLightEnabled p;
  light := light p;
  hasDirectionalLight := b
|}.

(** Modelled from the spec: [createInstances] of ../material_sandbox.h, which
    is not among the sources.  The spec names the "light builder" among the
    engine calls and has the material model "mapped to external engine
    material instances": the function creates one instance per MATERIAL_ slot
    and the sun entity [params.light], built from the record's light fields;
    it assigns no parameter field. *)
Definition createInstances (e : Engine) (p : SandboxParameters)
  : SandboxParameters * list EngineCall :=
  (set_light (created_light e) p,
   map (fun k => createInstance (Slot (Z.of_nat k)))
       (seq 0 (Z.to_nat MATERIAL_COUNT)) ++
   [ LightManager_build (created_light e) (lightColor p) (lightIntensity p)
       (lightDirection p) (sunAngularRadius p) true ]).

(** sandbox.cpp:58-108. *)
Definition setup (e : Engine) (app : SandboxApp) : SandboxApp * list EngineCall :=
  let p := setup_params (params app) in
  let '(p, created) := createInstances e p in
  ({| filamesh := Some (mesh_renderable e);
      cam := Some (created_camera e);
      params := p;
      skylight := true;
      scene := true |},
   created ++
   [ Scene_addEntity (mesh_renderable e);
     Scene_addEntity (light p);
     Scene_setIndirectLight;
     Scene_setSkybox;
     Camera_setExposure 16 (1 / 125) 100;
     View_setCamera;
     Manipulator_setCamera;
     Manipulator_lookAt (Float3 0 1 7) (Float3 0 1 0) ]).

(** sandbox.cpp:110-119. *)
Definition animate (rnd : Q -> Q) (vp : Viewport) (now : Q) (previous : option Q)
  : option (option Q * list EngineCall) :=
  match set_projection rnd vp with
  | None => None
  | Some proj => Some (init_previous previous now, [proj])
  end.

(** sandbox.cpp:126-179. *)
Definition ui_panel (i : UiInput) (p : SandboxParameters) : SandboxParameters :=
  let material := open_Material i in
  let model :=
    if material then Combo (pick_model i) (currentMaterialModel p) model_items
    else currentMaterialModel p in
  let blending :=
    if material && (model =? MATERIAL_MODEL_LIT)
    then Combo (pick_blending i) (currentBlending p) blending_items
    else currentBlending p in
  let shaded := material && (model >? MATERIAL_MODEL_UNLIT) in
  let not_cloth := negb (model =? MATERIAL_MODEL_CLOTH) in
  let plain := not_cloth && negb (model =? MATERIAL_MODEL_SUBSURFACE) in
  let subsurface := model =? MATERIAL_MODEL_SUBSURFACE in
  let cloth := model =? MATERIAL_MODEL_CLOTH in
  let light_open := open_Light i in
  {| color := if material then ColorEdit3 (edit_baseColor i) (color p) else color p;
     alpha :=
       if shaded && ((blending =? BLENDING_TRANSPARENT) || (blending =? BLENDING_FADE))
       then SliderFloat (edit_alpha i) (alpha p) 0 1 else alpha p;
     roughness :=
       if shaded then SliderFloat (edit_roughness i) (roughness p) 0 1 else roughness p;
     metallic :=
       if shaded && not_cloth
       then SliderFloat (edit_metallic i) (metallic p) 0 1 else metallic p;
     reflectance :=
       if shaded && not_cloth
       then SliderFloat (edit_reflectance i) (reflectance p) 0 1 else reflectance p;
     clearCoat :=
       if shaded && plain
       then SliderFloat (edit_clearCoat i) (clearCoat p) 0 1 else clearCoat p;
     clearCoatRoughness :=
       if shaded && plain
       then SliderFloat (edit_clearCoatRoughness i) (clearCoatRoughness p) 0 1
       else clearCoatRoughness p;
     anisotropy :=
       if shaded && plain
       then SliderFloat (edit_anisotropy i) (anisotropy p) (-1) 1 else anisotropy p;
     thickness :=
       if shaded && subsurface
       then SliderFloat (edit_thickness i) (thickness p) 0 1 else thickness p;
     subsurfacePower :=
       if shaded && subsurface
       then SliderFloat (edit_subsurfacePower i) (subsurfacePower p) 1 24
       else subsurfacePower p;
     subsurfaceColor :=
       if shaded && (subsurface || cloth)
       then ColorEdit3 (edit_subsurfaceColor i) (subsurfaceColor p)
       else subsurfaceColor p;
     sheenColor :=
       if shaded && cloth
       then ColorEdit3 (edit_sheenColor i) (sheenColor p) else sheenColor p;
     currentMaterialModel := model;
     currentBlending := blending;
     castShadows :=
       if open_Object i then Checkbox (edit_castShadows i) (castShadows p)
       else castShadows p;
     lightColor :=
       if light_open then ColorEdit3 (edit_lightColor i) (lightColor p)
       else lightColor p;
     lightIntensity :=
       if light_open then SliderFloat (edit_lux i) (lightIntensity p) 0 150000
       else lightIntensity p;
     lightDirection :=
       if light_open then SliderFloat3 (edit_direction i) (lightDirection p) (-1) 1
       else lightDirection p;
     iblIntensity :=
       if light_open then SliderFloat (edit_ibl i) (iblIntensity p) 0 50000
       else iblIntensity p;
     iblRotation :=
       if light_open then SliderAngle (edit_iblRotation i) (iblRotation p)
       else iblRotation p;
     sunHaloSize :=
       if light_open then SliderFloat (edit_haloSize i) (sunHaloSize p) (101 # 100) 40
       else sunHaloSize p;
     sunHaloFalloff :=
       if light_open then SliderFloat (edit_haloFalloff i) (sunHaloFalloff p) 0 2048
       else sunHaloFalloff p;
     sunAngularRadius :=
       if light_open then SliderFloat (edit_sunSize i) (sunAngularRadius p) (1 # 10) 10
       else sunAngularRadius p;
     directionalLightEnabled :=
       if light_open then Checkbox (edit_enabled i) (directionalLightEnabled p)
       else directionalLightEnabled p;
     light := light p;
     hasDirectionalLight := hasDirectionalLight p |}.

(** The material slot: the computation of part_000:257-261. *)
Definition material_index (p : SandboxParameters) : Z :=
  let material := currentMaterialModel p in
  if material =? MATERIAL_MODEL_LIT then
    let material :=
      if currentBlending p =? BLENDING_TRANSPARENT then MATERIAL_TRANSPARENT
      else material in
    if currentBlending p =? BLENDING_FADE then MATERIAL_FADE else material
  else material.

Definition push_material (materialInstance : MaterialInstance)
    (p : SandboxParameters) : list EngineCall :=
  (if currentMaterialModel p =? MATERIAL_MODEL_UNLIT then
     [ setParameter materialInstance "baseColor" (PsRGB (color p)) ]
   else []) ++
  (if currentMaterialModel p =? MATERIAL_MODEL_LIT then
     [ setParameter materialInstance "baseColor" (PsRGB (color p));
       setParameter materialInstance "roughness" (PFloat (roughness p));
       setParameter materialInstance "metallic" (PFloat (metallic p));
       setParameter materialInstance "reflectance" (PFloat (reflectance p));
       setParameter materialInstance "clearCoat" (PFloat (clearCoat p));
       setParameter materialInstance "clearCoatRoughness"
         (PFloat (clearCoatRoughness p));
       setParameter materialInstance "anisotropy" (PFloat (anisotropy p)) ] ++
     (if negb (currentBlending p =? BLENDING_OPAQUE) then
        [ setParameter materialInstance "alpha" (PFloat (alpha p)) ]
      else [])
   else []) ++
  (if currentMaterialModel p =? MATERIAL_MODEL_SUBSURFACE then
     [ setParameter materialInstance "baseColor" (PsRGB (color p));
       setParameter materialInstance "roughness" (PFloat (roughness p));
       setParameter materialInstance "metallic" (PFloat (metallic p));
       setParameter materialInstance "reflectance" (PFloat (reflectance p));
       setParameter materialInstance "thickness" (PFloat (thickness p));
       setParameter materialInstance "subsurfacePower" (PFloat (subsurfacePower p));
       setParameter materialInstance "subsurfaceColor" (PsRGB (subsurfaceColor p)) ]
   else []) ++
  (if currentMaterialModel p =? MATERIAL_MODEL_CLOTH then
     [ setParameter materialInstance "baseColor" (PsRGB (color p));
       setParameter materialInstance "roughness" (PFloat (roughness p));
       setParameter materialInstance "sheenColor" (PsRGB (sheenColor p));
       setParameter materialInstance "subsurfaceColor" (PsRGB (subsurfaceColor p)) ]
   else []).

Definition push_light (p : SandboxParameters) : list EngineCall :=
  [ LightManager_setColor (light p) (lightColor p);
    LightManager_setIntensity (light p) (lightIntensity p);
    LightManager_setDirection (light p) (lightDirection p);
    LightManager_setSunAngularRadius (light p) (sunAngularRadius p);
    LightManager_setSunHaloSize (light p) (sunHaloSize p);
    LightManager_setSunHaloFalloff (light p) (sunHaloFalloff p) ].

(** Modelled from the spec: [updateInstances] of ../material_sandbox.h, which
    is not among the sources.  The spec has the record "read each frame and
    pushed into the external engine's material-instance and light-manager
    objects" and the material model "mapped to external engine material
    instances".  The material half is the block of part_000:257-292 with the
    lookup that block keeps as a comment, [params.materialInstance[material]];
    the light half hands each directional-light field to the light manager.
    The record is read, not written. *)
Definition updateInstances (p : SandboxParameters)
  : MaterialInstance * list EngineCall :=
  let materialInstance := Slot (material_index p) in
  (materialInstance, push_material materialInstance p ++ push_light p).

(** sandbox.cpp:192-198. *)
Definition sync_light (p : SandboxParameters) : SandboxParameters * list EngineCall :=
  if directionalLightEnabled p && negb (hasDirectionalLight p) then
    (set_hasDirectionalLight true p, [ Scene_addEntity (light p) ])
  else if negb (directionalLightEnabled p) && hasDirectionalLight p then
    (set_hasDirectionalLight false p, [ Scene_remove (light p) ])
  else (p, []).

(** sandbox.cpp:121-203. *)
Definition ui (e : Engine) (i : UiInput) (p : SandboxParameters)
  : SandboxParameters * list EngineCall :=
  let p := ui_panel i p in
  let '(materialInstance, pushed) := updateInstances p in
  let primitives :=
    map (fun k => setMaterialInstanceAt k materialInstance)
        (seq 0 (primitiveCount e)) in
  let '(p', toggled) := sync_light p in
  (p',
   pushed ++ primitives ++ [ setCastShadows (castShadows p) ] ++ toggled ++
   [ IndirectLight_setIntensity (iblIntensity p');
     IndirectLight_setRotation (iblRotation p') (Float3 0 1 0) ]).

Definition ui_app (e : Engine) (i : UiInput) (app : SandboxApp)
  : SandboxApp * list EngineCall :=
  let '(p', calls) := ui e i (params app) in
  ({| filamesh := filamesh app; cam := cam app; params := p';
      skylight := skylight app; scene := scene app |}, calls).

(** sandbox.cpp:207-209. *)
Definition launch (e : Engine) (rnd : Q -> Q) (fs : list Frame)
  : option (World SandboxApp) :=
  run (setup e) (animate rnd) (ui_app e) app0 fs.

(** The records the program can hold: what [setup] leaves, then any number
    of [ui] frames. *)
Inductive reachable (e : Engine) : SandboxParameters -> Prop :=
| reach_setup : reachable e (params (fst (setup e app0)))
| reach_ui i p : reachable e p -> reachable e (fst (ui e i p)).

(** The ranges the sliders impose, field by field. *)
Definition slider_ranges (p : SandboxParameters) : Prop :=
  in_range 0 1 (alpha p) /\
  in_range 0 1 (roughness p) /\
  in_range 0 1 (metallic p) /\
  in_range 0 1 (reflectance p) /\
  in_range 0 1 (clearCoat p) /\
  in_range 0 1 (clearCoatRoughness p) /\
  in_range (-1) 1 (anisotropy p) /\
  in_range 0 1 (thickness p) /\
  in_range 1 24 (subsurfacePower p) /\
  in_range 0 150000 (lightIntensity p) /\
  in_range3 (-1) 1 (lightDirection p) /\
  in_range (1 # 10) 10 (sunAngularRadius p) /\
  in_range (101 # 100) 40 (sunHaloSize p) /\
  in_range 0 2048 (sunHaloFalloff p) /\
  in_range 0 50000 (iblIntensity p).

(** The ranges the two combos impose. *)
Definition combo_ranges (p : SandboxParameters) : Prop :=
  0 <= currentMaterialModel p <= 3 /\ 0 <= currentBlending p <= 2.

(** The light entity is in the scene exactly when the flag is set, and the
    flag agrees with the toggle. *)
Definition light_synced (w : World SandboxApp) : Prop :=
  (light (params (world_app w)) ∈ world_scene w <->
   hasDirectionalLight (params (world_app w)) = true) /\
  hasDirectionalLight (params (world_app w)) =
  directionalLightEnabled (params (world_app w)).

Definition listed (p : SandboxParameters) : ListedFields := {|
  listed_color := color p;
  listed_roughness := roughness p;
  listed_metallic := metallic p;
  listed_reflectance := reflectance p;
  listed_clearCoat := clearCoat p;
  listed_clearCoatRoughness := clearCoatRoughness p;
  listed_thickness := thickness p;
  listed_subsurfacePower := subsurfacePower p;
  listed_subsurfaceColor := subsurfaceColor p;
  listed_sheenColor := sheenColor p;
  listed_lightDirection := lightDirection p;
  listed_lightIntensity := lightIntensity p;
  listed_sunAngularRadius := sunAngularRadius p;
  listed_iblIntensity := iblIntensity p;
  listed_iblRotation := iblRotation p;
  listed_castShadows := castShadows p;
  listed_directionalLight := directionalLightEnabled p
|}.

Definition unlisted (p : SandboxParameters) : UnlistedFields := {|
  unlisted_alpha := alpha p;
  unlisted_anisotropy := anisotropy p;
  unlisted_currentMaterialModel := currentMaterialModel p;
  unlisted_currentBlending := currentBlending p;
  unlisted_lightColor := lightColor p;
  unlisted_sunHaloSize := sunHaloSize p;
  unlisted_sunHaloFalloff := sunHaloFalloff p
|}.

(** The fields the web record shares with the record of part_000. *)
Definition to_legacy (p : SandboxParameters) : Legacy.SandboxParameters := {|
  Legacy.color := color p; Legacy.alpha := alpha p;
  Legacy.roughness := roughness p; Legacy.metallic := metallic p;
  Legacy.reflectance := reflectance p; Legacy.clearCoat := clearCoat p;
  Legacy.clearCoatRoughness := clearCoatRoughness p;
  Legacy.anisotropy := anisotropy p; Legacy.thickness := thickness p;
  Legacy.subsurfacePower := subsurfacePower p;
  Legacy.subsurfaceColor := subsurfaceColor p; Legacy.sheenColor := sheenColor p;
  Legacy.currentMaterialModel := currentMaterialModel p;
  Legacy.currentBlending := currentBlending p; Legacy.castShadows := castShadows p;
  Legacy.lightColor := lightColor p; Legacy.lightIntensity := lightIntensity p;
  Legacy.lightDirection := lightDirection p; Legacy.iblIntensity := iblIntensity p;
  Legacy.iblRotation := iblRotation p; Legacy.sunHaloSize := sunHaloSize p;
  Legacy.sunHaloFalloff := sunHaloFalloff p;
  Legacy.sunAngularRadius := sunAngularRadius p;
  Legacy.directional_light_enabled := directionalLightEnabled p
|}.

End Web.

(** ** The fragment shader (part_001) *)

Module Shader.


Record vec2 := Vec2 { v2x : Q; v2y : Q }.
Record ivec2 := IVec2 { i2x : Z; i2y : Z }.
Record vec3 := Vec3 { v3x : Q; v3y : Q; v3z : Q }.
Record vec4 := Vec4 { v4x : Q; v4y : Q; v4z : Q; v4w : Q }.

Definition vec2_of_float (a : Q) : vec2 := Vec2 a a.
Definition vec2_of_ivec2 (s : ivec2) : vec2 := Vec2 (inject_Z (i2x s)) (inject_Z (i2y s)).
Definition add2 (a b : vec2) : vec2 := Vec2 (v2x a + v2x b) (v2y a + v2y b).
Definition div2 (a b : vec2) : vec2 := Vec2 (v2x a / v2x b) (v2y a / v2y b).
Definition add4 (a b : vec4) : vec4 :=
  Vec4 (v4x a + v4x b) (v4y a + v4y b) (v4z a + v4z b) (v4w a + v4w b).

(** A texture bound with a sampler: its size at a level of detail and the
    value fetched at a coordinate.  [coord] is [vec2] for [sampler2D] and
    [vec3] for [sampler2DArray], [samplerCube] and [sampler3D]. *)
Record combined (coord : Type) := {
  textureSize : Z -> ivec2;
  texture : coord -> vec4
}.
Arguments textureSize {coord}.
Arguments texture {coord}.

(** Lines 5-9: the bindings, arrays of four. *)
Record Uniforms (sampler : Type) := {
  uSampler : sampler;
  uTexture : nat -> sampler -> combined vec2;
  uTextureArray : nat -> sampler -> combined vec3;
  uTextureCube : nat -> sampler -> combined vec3;
  uTexture3D : nat -> sampler -> combined vec3
}.
Arguments uSampler {sampler}.
Arguments uTexture {sampler}.
Arguments uTextureArray {sampler}.
Arguments uTextureCube {sampler}.
Arguments uTexture3D {sampler}.

Definition bindings : list (string * Z) :=
  [ ("uTexture", 1); ("uSampler", 0); ("uTextureArray", 4);
    ("uTextureCube", 3); ("uTexture3D", 2) ]%string.

(** Line 17. *)
Definition _95 {S} (u : Uniforms S) (vTex : vec2) : vec2 :=
  add2
    (add2 vTex
       (div2 (vec2_of_float 1)
          (vec2_of_ivec2 (textureSize (uTexture u 1%nat (uSampler u)) 0))))
    (div2 (vec2_of_float 1)
       (vec2_of_ivec2 (textureSize (uTexture u 2%nat (uSampler u)) 1))).

(** Lines 15-19: the value written to [FragColor]. *)
Definition main {S} (u : Uniforms S) (vTex : vec2) (vTex3 : vec3) : vec4 :=
  let c := _95 u vTex in
  add4
    (add4
       (add4
          (add4
             (add4 (texture (uTexture u 2%nat (uSampler u)) c)
                   (texture (uTexture u 1%nat (uSampler u)) c))
             (texture (uTexture u 1%nat (uSampler u)) c))
          (texture (uTextureArray u 3%nat (uSampler u)) vTex3))
       (texture (uTextureCube u 1%nat (uSampler u)) vTex3))
    (texture (uTexture3D u 2%nat (uSampler u)) vTex3).



(** Sample bindings: every texture is 2 by 2 at every level and of one
    color, [k] in slot 0 of uTexture and white elsewhere. *)
Definition flat_uniforms (k : Q) : Uniforms unit :=
  {| uSampler := tt;
     uTexture := fun n _ =>
       {| textureSize := fun _ => IVec2 2 2;
          texture := fun _ => if (n =? 0)%nat then Vec4 k k k k else Vec4 1 1 1 1 |};
     uTextureArray := fun _ _ =>
       {| textureSize := fun _ => IVec2 2 2; texture := fun _ => Vec4 1 1 1 1 |};
     uTextureCube := fun _ _ =>
       {| textureSize := fun _ => IVec2 2 2; texture := fun _ => Vec4 1 1 1 1 |};
     uTexture3D := fun _ _ =>
       {| textureSize := fun _ => IVec2 2 2; texture := fun _ => Vec4 1 1 1 1 |} |}.

End Shader.

(** The user opens "Light" and ticks "enabled". *)
Definition frame_on : UiInput :=
  {| open_Material := true; open_Object := false; open_Light := true;
     pick_model := None; pick_blending := None; edit_baseColor := None;
     edit_alpha := None; edit_roughness := None; edit_metallic := None;
     edit_reflectance := None; edit_clearCoat := None;
     edit_clearCoatRoughness := None; edit_anisotropy := None;
     edit_thickness := None; edit_subsurfacePower := None;
     edit_subsurfaceColor := None; edit_sheenColor := None;
     edit_castShadows := None; edit_enabled := Some true; edit_lightColor := None;
     edit_lux := None; edit_direction := None; edit_sunSize := None;
     edit_haloSize := None; edit_haloFalloff := None; edit_ibl := None;
     edit_iblRotation := None |}.

(** ** Views of a frame's engine calls *)

(** The parameter names a list of calls sets, in order. *)
Definition pushed_names (calls : list EngineCall) : list string :=
  flat_map (fun c => match c with
                     | setParameter _ name _ => [name]
                     | _ => []
                     end) calls.



Definition is_object_or_ibl_call (c : EngineCall) : bool :=
  match c with
  | setCastShadows _ | IndirectLight_setIntensity _ | IndirectLight_setRotation _ _ => true
  | _ => false
  end.

(** * Theorems *)

(** ** The camera projection *)

Lemma inject_Z_eq0 (z : Z) : Qeq_bool (inject_Z z) 0 = (z =? 0).
Proof.
  unfold Qeq_bool, inject_Z; simpl.
  rewrite Z.mul_1_r. destruct z; reflexivity.
Qed.

Lemma inject_Z_pos (h : Z) : 0 < h -> (0 < inject_Z h)%Q.
Proof. intros H. change 0%Q with (inject_Z 0). now rewrite <- Zlt_Qlt. Qed.

Lemma fdiv_inject (w h : Z) :
  fdiv (inject_Z w) (inject_Z h) =
  if h =? 0 then None else Some (inject_Z w / inject_Z h)%Q.
Proof. unfold fdiv. now rewrite inject_Z_eq0. Qed.

Lemma set_projection_eq (rnd : Q -> Q) (vp : Viewport) :
  set_projection rnd vp =
  if height vp =? 0 then None
  else Some (Camera_setProjection 45
               (rnd (inject_Z (width vp) / inject_Z (height vp))%Q) (1 # 10) 50
               (if Qlt_le_dec (rnd (inject_Z (width vp) / inject_Z (height vp))%Q) 1
                then HORIZONTAL else VERTICAL)).
Proof.
  unfold set_projection. rewrite fdiv_inject.
  destruct (height vp =? 0); reflexivity.
Qed.

Lemma animate_None_iff
    (rnd : Q -> Q) (vp : Viewport) (now : Q) (previous : option Q) :
  (Web.animate rnd vp now previous = None <-> height vp = 0) /\
  (Legacy.animate rnd vp now previous = None <-> height vp = 0).
Proof.
  unfold Web.animate, Legacy.animate. rewrite set_projection_eq.
  destruct (Z.eqb_spec (height vp) 0) as [E | E].
  - repeat split; auto.
  - repeat split; intros H; try discriminate; contradiction.
Qed.


Section Rounding.
(** Rounding to binary64 is monotone and leaves 1 and 1 - 2^-32 as they
    are (both have a significand of at most 32 bits). *)
Variable rnd : Q -> Q.
Hypothesis rnd_monotone : forall a b : Q, (a <= b)%Q -> (rnd a <= rnd b)%Q.
Hypothesis rnd_one : (rnd 1 == 1)%Q.
Hypothesis rnd_below_one :
  (rnd (1 - (1 # 4294967296)) == 1 - (1 # 4294967296))%Q.

Lemma ratio_lt_1_iff (w h : Z) :
  0 < h -> ((inject_Z w / inject_Z h < 1)%Q <-> w < h).
Proof.
  intros Hh.
  assert (Hq : (0 < inject_Z h)%Q) by (apply inject_Z_pos; exact Hh).
  split; intros H.
  - rewrite Zlt_Qlt.
    destruct (Qlt_le_dec (inject_Z w) (inject_Z h)) as [L | L]; [exact L |].
    exfalso.
    assert (D : (1 <= inject_Z w / inject_Z h)%Q).
    { apply Qle_shift_div_l; [exact Hq | rewrite Qmult_1_l; exact L]. }
    lra.
  - apply Qlt_shift_div_r; [exact Hq |].
    rewrite Qmult_1_l. now rewrite <- Zlt_Qlt.
Qed.

Lemma rounded_ratio_lt_1_iff (w h : Z) :
  0 < h <= UINT32_MAX ->
  ((rnd (inject_Z w / inject_Z h) < 1)%Q <-> (inject_Z w / inject_Z h < 1)%Q).
Proof.
  unfold UINT32_MAX. intros [Hh Hmax].
  assert (Hq : (0 < inject_Z h)%Q) by (apply inject_Z_pos; exact Hh).
  assert (Hm : (inject_Z h <= 4294967295)%Q).
  { change 4294967295%Q with (inject_Z 4294967295). now rewrite <- Zle_Qle. }
  split; intros H.
  - destruct (Qlt_le_dec (inject_Z w / inject_Z h) 1) as [L | L]; [exact L |].
    apply rnd_monotone in L. lra.
  - assert (Hlt : w < h) by (apply (ratio_lt_1_iff w h Hh); exact H).
    assert (Hw : (inject_Z w <= inject_Z h - 1)%Q).
    { assert (S : (inject_Z (w + 1) <= inject_Z h)%Q) by (rewrite <- Zle_Qle; lia).
      rewrite inject_Z_plus in S. change (inject_Z 1) with 1%Q in S. lra. }
    assert (B : (inject_Z w / inject_Z h <= 1 - (1 # 4294967296))%Q).
    { apply Qle_shift_div_r; [exact Hq |]. lra. }
    apply rnd_monotone in B. lra.
Qed.

(** C10: whenever the viewport has a height, [animate] (in both sandboxes)
    issues [setProjection] with field of view 45, near plane 0.1 and far
    plane 50, and the direction is HORIZONTAL exactly when width / height
    is below 1, VERTICAL otherwise. *)
Theorem animate_projection
    (vp : Viewport) (now : Q) (previous : option Q) :
  0 <= width vp <= UINT32_MAX ->
  0 < height vp <= UINT32_MAX ->
  exists (ratio : Q) (dir : Fov),
    Web.animate rnd vp now previous =
      Some (init_previous previous now,
            [ Camera_setProjection 45 ratio (1 # 10) 50 dir ]) /\
    Legacy.animate rnd vp now previous =
      Some (init_previous previous now,
            [ Camera_setProjection 45 ratio (1 # 10) 50 dir; setTransform now ]) /\
    ratio = rnd (inject_Z (width vp) / inject_Z (height vp))%Q /\
    (dir = HORIZONTAL <-> (inject_Z (width vp) / inject_Z (height vp) < 1)%Q) /\
    (dir = VERTICAL <-> ~ (inject_Z (width vp) / inject_Z (height vp) < 1)%Q).
Proof.
  intros _ Hh.
  pose proof (rounded_ratio_lt_1_iff (width vp) (height vp) Hh) as R.
  unfold Web.animate, Legacy.animate. rewrite set_projection_eq.
  destruct (Z.eqb_spec (height vp) 0) as [E | _]; [lia |].
  eexists _, _. split; [reflexivity |]. split; [reflexivity |].
  split; [reflexivity |].
  destruct (Qlt_le_dec (rnd (inject_Z (width vp) / inject_Z (height vp))) 1)
    as [L | L].
  - apply R in L. split; split; intros; auto; try discriminate; contradiction.
  - assert (N : ~ (inject_Z (width vp) / inject_Z (height vp) < 1)%Q).
    { intros C. apply R in C. lra. }
    split; split; intros; auto; try discriminate; contradiction.
Qed.
End Rounding.

(** ** What the widgets preserve *)

Lemma clamp_in_range (lo hi v : Q) : (lo <= hi)%Q -> in_range lo hi (clamp lo hi v).
Proof.
  intros H. unfold in_range, clamp.
  destruct (Qlt_le_dec v lo); [lra |].
  destruct (Qlt_le_dec hi v); lra.
Qed.

Lemma guarded_slider (c : bool) (e : option Q) (v lo hi : Q) :
  (lo <= hi)%Q -> in_range lo hi v ->
  in_range lo hi (if c then SliderFloat e v lo hi else v).
Proof.
  intros H Hv. destruct c; [| exact Hv].
  destruct e; simpl; [now apply clamp_in_range | exact Hv].
Qed.

Lemma guarded_slider3 (c : bool) (e : option float3) (v : float3) (lo hi : Q) :
  (lo <= hi)%Q -> in_range3 lo hi v ->
  in_range3 lo hi (if c then SliderFloat3 e v lo hi else v).
Proof.
  intros H Hv. destruct c; [| exact Hv].
  destruct e; simpl; [| exact Hv].
  repeat split; simpl; now apply clamp_in_range.
Qed.

Lemma Combo_bounds (pick : option nat) (current : Z) (items : string) :
  0 <= current < Z.of_nat (List.length (combo_items items)) ->
  0 <= Combo pick current items < Z.of_nat (List.length (combo_items items)).
Proof.
  intros H. unfold Combo. destruct pick as [i |]; [| exact H].
  destruct (Nat.ltb_spec i (List.length (combo_items items))); [lia | exact H].
Qed.

Lemma guarded_Combo (c : bool) (pick : option nat) (current : Z) (items : string) :
  0 <= current < Z.of_nat (List.length (combo_items items)) ->
  0 <= (if c then Combo pick current items else current)
    < Z.of_nat (List.length (combo_items items)).
Proof. intros H. destruct c; [now apply Combo_bounds | exact H]. Qed.

Ltac slider_goals :=
  repeat match goal with
         | |- _ /\ _ => split
         | |- in_range _ _ (if _ then SliderFloat _ _ _ _ else _) =>
             apply guarded_slider; [unfold Qle; simpl; lia | assumption]
         | |- in_range3 _ _ (if _ then SliderFloat3 _ _ _ _ else _) =>
             apply guarded_slider3; [unfold Qle; simpl; lia | assumption]
         end.

Lemma Legacy_ui_panel_ranges (i : UiInput) (p : Legacy.SandboxParameters) :
  Legacy.slider_ranges p -> Legacy.slider_ranges (Legacy.ui_panel i p).
Proof.
  unfold Legacy.slider_ranges.
  intros (? & ? & ? & ? & ? & ? & ? & ? & ? & ? & ? & ? & ? & ? & ?).
  unfold Legacy.ui_panel; cbv zeta.
  cbn [Legacy.alpha Legacy.roughness Legacy.metallic Legacy.reflectance
       Legacy.clearCoat Legacy.clearCoatRoughness Legacy.anisotropy
       Legacy.thickness Legacy.subsurfacePower Legacy.lightIntensity
       Legacy.lightDirection Legacy.sunAngularRadius Legacy.sunHaloSize
       Legacy.sunHaloFalloff Legacy.iblIntensity].
  slider_goals.
Qed.

Lemma Legacy_ui_panel_combos (i : UiInput) (p : Legacy.SandboxParameters) :
  Legacy.combo_ranges p -> Legacy.combo_ranges (Legacy.ui_panel i p).
Proof.
  unfold Legacy.combo_ranges. intros [Hm Hb].
  unfold Legacy.ui_panel; cbv zeta.
  cbn [Legacy.currentMaterialModel Legacy.currentBlending].
  split.
  - pose proof (guarded_Combo (open_Material i) (pick_model i)
                  (Legacy.currentMaterialModel p) model_items) as G.
    change (List.length (combo_items model_items)) with 4%nat in G. lia.
  - match goal with
    | |- _ <= (if ?c then _ else _) <= _ =>
        pose proof (guarded_Combo c (pick_blending i)
                      (Legacy.currentBlending p) blending_items) as G
    end.
    change (List.length (combo_items blending_items)) with 3%nat in G. lia.
Qed.

Lemma Web_ui_panel_ranges (i : UiInput) (p : Web.SandboxParameters) :
  Web.slider_ranges p -> Web.slider_ranges (Web.ui_panel i p).
Proof.
  unfold Web.slider_ranges.
  intros (? & ? & ? & ? & ? & ? & ? & ? & ? & ? & ? & ? & ? & ? & ?).
  unfold Web.ui_panel; cbv zeta.
  cbn [Web.alpha Web.roughness Web.metallic Web.reflectance
       Web.clearCoat Web.clearCoatRoughness Web.anisotropy
       Web.thickness Web.subsurfacePower Web.lightIntensity
       Web.lightDirection Web.sunAngularRadius Web.sunHaloSize
       Web.sunHaloFalloff Web.iblIntensity].
  slider_goals.
Qed.

Lemma Web_ui_panel_combos (i : UiInput) (p : Web.SandboxParameters) :
  Web.combo_ranges p -> Web.combo_ranges (Web.ui_panel i p).
Proof.
  unfold Web.combo_ranges. intros [Hm Hb].
  unfold Web.ui_panel; cbv zeta.
  cbn [Web.currentMaterialModel Web.currentBlending].
  split.
  - pose proof (guarded_Combo (open_Material i) (pick_model i)
                  (Web.currentMaterialModel p) model_items) as G.
    change (List.length (combo_items model_items)) with 4%nat in G. lia.
  - match goal with
    | |- _ <= (if ?c then _ else _) <= _ =>
        pose proof (guarded_Combo c (pick_blending i)
                      (Web.currentBlending p) blending_items) as G
    end.
    change (List.length (combo_items blending_items)) with 3%nat in G. lia.
Qed.

(** ** The light toggle of the web sandbox *)

Lemma Web_ui_fst (e : Engine) (i : UiInput) (p : Web.SandboxParameters) :
  fst (Web.ui e i p) = fst (Web.sync_light (Web.ui_panel i p)).
Proof.
  unfold Web.ui, Web.updateInstances.
  destruct (Web.sync_light (Web.ui_panel i p)); reflexivity.
Qed.

Lemma sync_light_cases (p : Web.SandboxParameters) :
  Web.sync_light p =
  if Bool.eqb (Web.directionalLightEnabled p) (Web.hasDirectionalLight p)
  then (p, [])
  else (Web.set_hasDirectionalLight (Web.directionalLightEnabled p) p,
        [ if Web.directionalLightEnabled p
          then Scene_addEntity (Web.light p) else Scene_remove (Web.light p) ]).
Proof.
  unfold Web.sync_light.
  destruct (Web.directionalLightEnabled p), (Web.hasDirectionalLight p); reflexivity.
Qed.

Lemma sync_light_synced (p : Web.SandboxParameters) :
  Web.hasDirectionalLight (fst (Web.sync_light p)) =
  Web.directionalLightEnabled (fst (Web.sync_light p)).
Proof.
  rewrite sync_light_cases.
  destruct (Web.directionalLightEnabled p) eqn:E, (Web.hasDirectionalLight p) eqn:H;
    simpl; congruence.
Qed.

Lemma sync_light_enabled (p : Web.SandboxParameters) :
  Web.directionalLightEnabled (fst (Web.sync_light p)) = Web.directionalLightEnabled p.
Proof.
  rewrite sync_light_cases.
  destruct (Bool.eqb _ _); reflexivity.
Qed.

Lemma sync_light_ranges (p : Web.SandboxParameters) :
  Web.slider_ranges p -> Web.slider_ranges (fst (Web.sync_light p)).
Proof.
  rewrite sync_light_cases. destruct (Bool.eqb _ _); intros H; exact H.
Qed.

Lemma sync_light_combos (p : Web.SandboxParameters) :
  Web.combo_ranges p -> Web.combo_ranges (fst (Web.sync_light p)).
Proof.
  rewrite sync_light_cases. destruct (Bool.eqb _ _); intros H; exact H.
Qed.

(** ** Invariants of the reachable records *)

Lemma Legacy_defaults_ranges : Legacy.slider_ranges Legacy.defaults.
Proof. unfold Legacy.slider_ranges, in_range3, in_range, Qle; simpl; lia. Qed.

Lemma Legacy_reachable_inv (p : Legacy.SandboxParameters) :
  Legacy.reachable p -> Legacy.slider_ranges p /\ Legacy.combo_ranges p.
Proof.
  induction 1 as [e | i p _ [IHr IHc]].
  - split; [exact Legacy_defaults_ranges |].
    unfold Legacy.combo_ranges; simpl.
    unfold MATERIAL_MODEL_LIT, BLENDING_OPAQUE; lia.
  - split; [now apply Legacy_ui_panel_ranges | now apply Legacy_ui_panel_combos].
Qed.

Lemma Web_setup_ranges (e : Engine) :
  Web.slider_ranges (Web.params (fst (Web.setup e Web.app0))).
Proof. unfold Web.slider_ranges, in_range3, in_range, Qle; simpl; lia. Qed.

Lemma Web_reachable_inv (e : Engine) (p : Web.SandboxParameters) :
  Web.reachable e p ->
  Web.slider_ranges p /\ Web.combo_ranges p /\
  Web.hasDirectionalLight p = Web.directionalLightEnabled p.
Proof.
  induction 1 as [| i p _ (IHr & IHc & _)].
  - split; [exact (Web_setup_ranges e) |].
    split; [| reflexivity].
    unfold Web.combo_ranges; simpl.
    unfold MATERIAL_MODEL_LIT, BLENDING_OPAQUE; lia.
  - rewrite Web_ui_fst. split; [| split].
    + apply sync_light_ranges. now apply Web_ui_panel_ranges.
    + apply sync_light_combos. now apply Web_ui_panel_combos.
    + apply sync_light_synced.
Qed.

(** ** C3 *)

(** C3 (as amended): every record the program can hold, in either sandbox,
    has each slider-controlled field within the range of its slider; besides,
    the combos keep [currentMaterialModel] in 0..3 and [currentBlending] in
    0..2, and in the web sandbox [hasDirectionalLight] equals
    [directionalLightEnabled]. *)
Theorem reachable_records_in_range
    (e : Engine) (pl : Legacy.SandboxParameters) (pw : Web.SandboxParameters) :
  Legacy.reachable pl ->
  Web.reachable e pw ->
  (Legacy.slider_ranges pl /\ Legacy.combo_ranges pl) /\
  (Web.slider_ranges pw /\ Web.combo_ranges pw /\
   Web.hasDirectionalLight pw = Web.directionalLightEnabled pw).
Proof.
  intros Hl Hw. split.
  - now apply Legacy_reachable_inv.
  - now apply (Web_reachable_inv e).
Qed.

Lemma reachable_records_in_range_witness :
  Legacy.reachable
    (fst (Legacy.ui overdrag (Legacy.params (fst (Legacy.setup engine0 Legacy.app0))))) /\
  Web.reachable engine0
    (fst (Web.ui engine0 overdrag (Web.params (fst (Web.setup engine0 Web.app0))))) /\
  (Legacy.slider_ranges
     (fst (Legacy.ui overdrag (Legacy.params (fst (Legacy.setup engine0 Legacy.app0))))) /\
   Legacy.combo_ranges
     (fst (Legacy.ui overdrag (Legacy.params (fst (Legacy.setup engine0 Legacy.app0)))))) /\
  (Web.slider_ranges
     (fst (Web.ui engine0 overdrag (Web.params (fst (Web.setup engine0 Web.app0))))) /\
   Web.combo_ranges
     (fst (Web.ui engine0 overdrag (Web.params (fst (Web.setup engine0 Web.app0))))) /\
   Web.hasDirectionalLight
     (fst (Web.ui engine0 overdrag (Web.params (fst (Web.setup engine0 Web.app0))))) =
   Web.directionalLightEnabled
     (fst (Web.ui engine0 overdrag (Web.params (fst (Web.setup engine0 Web.app0)))))).
Proof.
  assert (Hl : Legacy.reachable
    (fst (Legacy.ui overdrag (Legacy.params (fst (Legacy.setup engine0 Legacy.app0))))))
    by (apply Legacy.reach_ui, Legacy.reach_setup).
  assert (Hw : Web.reachable engine0
    (fst (Web.ui engine0 overdrag (Web.params (fst (Web.setup engine0 Web.app0))))))
    by (apply Web.reach_ui, Web.reach_setup).
  exact (conj Hl (conj Hw (reachable_records_in_range engine0 _ _ Hl Hw))).
Defined.

(** C3, the part that fails: the slider ranges are not the only invariant.
    The legacy record with material model 7 lies within every slider range
    and is never reached, and so does the web record whose
    [hasDirectionalLight] differs from [directionalLightEnabled], which
    lies within the combo ranges too. *)
Lemma slider_ranges_not_the_only_invariant :
  (Legacy.slider_ranges Legacy.off_menu /\ ~ Legacy.reachable Legacy.off_menu) /\
  (Web.slider_ranges (Web.set_hasDirectionalLight false Web.defaults) /\
   Web.combo_ranges (Web.set_hasDirectionalLight false Web.defaults) /\
   ~ Web.reachable engine0 (Web.set_hasDirectionalLight false Web.defaults)).
Proof.
  split; [split | split; [| split]].
  - exact Legacy_defaults_ranges.
  - intros R. apply Legacy_reachable_inv in R as [_ [C _]].
    simpl in C. lia.
  - unfold Web.slider_ranges, in_range3, in_range, Qle; simpl; lia.
  - unfold Web.combo_ranges; simpl.
    unfold MATERIAL_MODEL_LIT, BLENDING_OPAQUE; lia.
  - intros R. apply (Web_reachable_inv engine0) in R as (_ & _ & S).
    discriminate S.
Qed.

(** ** The scene *)

Lemma scene_run_app (a b : list EngineCall) (s : gset Entity) :
  scene_run (a ++ b) s = scene_run b (scene_run a s).
Proof. unfold scene_run. apply fold_left_app. Qed.

Lemma scene_run_no_edit (calls : list EngineCall) (s : gset Entity) :
  List.filter is_scene_edit calls = [] -> scene_run calls s = s.
Proof.
  unfold scene_run. revert s.
  induction calls as [| c calls IH]; intros s H; [reflexivity |].
  simpl in H. destruct (is_scene_edit c) eqn:E; [discriminate |].
  simpl. rewrite IH by exact H.
  destruct c; try reflexivity; discriminate.
Qed.

Lemma filter_edit_primitives (mi : MaterialInstance) (l : list nat) :
  List.filter is_scene_edit (map (fun k => setMaterialInstanceAt k mi) l) = [].
Proof. induction l as [| k l IH]; [reflexivity | exact IH]. Qed.

Lemma filter_edit_push_material (mi : MaterialInstance) (p : Web.SandboxParameters) :
  List.filter is_scene_edit (Web.push_material mi p) = [].
Proof.
  unfold Web.push_material.
  destruct (Web.currentMaterialModel p =? MATERIAL_MODEL_UNLIT),
           (Web.currentMaterialModel p =? MATERIAL_MODEL_LIT),
           (negb (Web.currentBlending p =? BLENDING_OPAQUE)),
           (Web.currentMaterialModel p =? MATERIAL_MODEL_SUBSURFACE),
           (Web.currentMaterialModel p =? MATERIAL_MODEL_CLOTH); reflexivity.
Qed.

Lemma Web_ui_snd (e : Engine) (i : UiInput) (p : Web.SandboxParameters) :
  snd (Web.ui e i p) =
  (Web.push_material (Slot (Web.material_index (Web.ui_panel i p))) (Web.ui_panel i p) ++
   Web.push_light (Web.ui_panel i p)) ++
  map (fun k => setMaterialInstanceAt k (Slot (Web.material_index (Web.ui_panel i p))))
      (seq 0 (primitiveCount e)) ++
  [ setCastShadows (Web.castShadows (Web.ui_panel i p)) ] ++
  snd (Web.sync_light (Web.ui_panel i p)) ++
  [ IndirectLight_setIntensity (Web.iblIntensity (Web.ui_panel i p));
    IndirectLight_setRotation (Web.iblRotation (Web.ui_panel i p)) (Float3 0 1 0) ].
Proof.
  unfold Web.ui, Web.updateInstances.
  rewrite sync_light_cases.
  destruct (Bool.eqb _ _); reflexivity.
Qed.

Lemma filter_edit_sync (p : Web.SandboxParameters) :
  List.filter is_scene_edit (snd (Web.sync_light p)) = snd (Web.sync_light p).
Proof.
  rewrite sync_light_cases.
  destruct (Bool.eqb _ _); [reflexivity |].
  destruct (Web.directionalLightEnabled p); reflexivity.
Qed.

Lemma Web_ui_scene_edits (e : Engine) (i : UiInput) (p : Web.SandboxParameters) :
  List.filter is_scene_edit (snd (Web.ui e i p)) =
  snd (Web.sync_light (Web.ui_panel i p)).
Proof.
  rewrite Web_ui_snd.
  rewrite !List.filter_app, filter_edit_push_material, filter_edit_primitives,
    filter_edit_sync.
  simpl. now rewrite app_nil_r.
Qed.

Lemma scene_run_filter (calls : list EngineCall) (s : gset Entity) :
  scene_run calls s = scene_run (List.filter is_scene_edit calls) s.
Proof.
  unfold scene_run. revert s.
  induction calls as [| c calls IH]; intros s; [reflexivity |].
  simpl. destruct (is_scene_edit c) eqn:E; simpl; rewrite IH; [reflexivity |].
  destruct c; try reflexivity; discriminate.
Qed.

(** One [ui] frame on a scene in which the light is present exactly when the
    flag says so. *)
Lemma Web_ui_light_step
    (e : Engine) (i : UiInput) (p : Web.SandboxParameters) (s : gset Entity) :
  (Web.light p ∈ s <-> Web.hasDirectionalLight p = true) ->
  Web.light (fst (Web.ui e i p)) = Web.light p /\
  Web.hasDirectionalLight (fst (Web.ui e i p)) =
    Web.directionalLightEnabled (fst (Web.ui e i p)) /\
  (Web.light p ∈ scene_run (snd (Web.ui e i p)) s <->
   Web.directionalLightEnabled (fst (Web.ui e i p)) = true) /\
  List.filter is_scene_edit (snd (Web.ui e i p)) =
    (if Bool.eqb (Web.directionalLightEnabled (fst (Web.ui e i p)))
                 (Web.hasDirectionalLight p)
     then []
     else [ if Web.directionalLightEnabled (fst (Web.ui e i p))
            then Scene_addEntity (Web.light p) else Scene_remove (Web.light p) ]).
Proof.
  intros Inv.
  rewrite scene_run_filter, Web_ui_scene_edits, Web_ui_fst.
  rewrite sync_light_synced, sync_light_enabled.
  rewrite sync_light_cases.
  assert (L : Web.light (Web.ui_panel i p) = Web.light p) by reflexivity.
  assert (H : Web.hasDirectionalLight (Web.ui_panel i p) = Web.hasDirectionalLight p)
    by reflexivity.
  rewrite L, H.
  destruct (Web.directionalLightEnabled (Web.ui_panel i p)) eqn:En,
           (Web.hasDirectionalLight p) eqn:Has; simpl; rewrite ?En, ?L;
    (split; [reflexivity |]); (split; [reflexivity |]);
    (split; [| reflexivity]); unfold scene_run; simpl.
  - tauto.
  - split; [reflexivity |].
    intros _. apply elem_of_union. left. now apply elem_of_singleton.
  - split; [| discriminate].
    intros I. apply elem_of_difference in I as [_ N].
    exfalso. apply N. now apply elem_of_singleton.
  - split; [intros I; apply Inv in I; discriminate | discriminate].
Qed.

(** ** The frame loop of the web sandbox *)

Lemma Web_ui_app_eq (e : Engine) (i : UiInput) (app : Web.SandboxApp) :
  Web.ui_app e i app =
  ({| Web.filamesh := Web.filamesh app; Web.cam := Web.cam app;
      Web.params := fst (Web.ui e i (Web.params app));
      Web.skylight := Web.skylight app; Web.scene := Web.scene app |},
   snd (Web.ui e i (Web.params app))).
Proof. unfold Web.ui_app. destruct (Web.ui e i (Web.params app)); reflexivity. Qed.

Lemma Web_run_frame_eq
    (e : Engine) (rnd : Q -> Q) (f : Frame) (w w' : World Web.SandboxApp) :
  run_frame (Web.animate rnd) (Web.ui_app e) f w = Some w' ->
  Web.params (world_app w') =
    fst (Web.ui e (frame_input f) (Web.params (world_app w))) /\
  world_scene w' =
    scene_run (snd (Web.ui e (frame_input f) (Web.params (world_app w))))
      (world_scene w) /\
  world_log w' = world_log w ++ [CbAnimate; CbUi].
Proof.
  unfold run_frame, Web.animate.
  destruct (set_projection rnd (frame_viewport f)) as [proj |] eqn:P; [| discriminate].
  rewrite Web_ui_app_eq. intros [= <-].
  cbn [world_app world_scene world_log Web.params].
  repeat split. f_equal.
  rewrite set_projection_eq in P.
  destruct (height (frame_viewport f) =? 0); [discriminate |].
  injection P as <-. reflexivity.
Qed.

Lemma Web_setup_synced (e : Engine) :
  Web.light_synced (run_setup (Web.setup e) Web.app0).
Proof.
  unfold Web.light_synced, run_setup, Web.setup, Web.createInstances.
  cbn [world_app world_scene Web.params Web.light Web.set_light
       Web.hasDirectionalLight Web.directionalLightEnabled Web.setup_params
       Web.app0 Web.defaults].
  split; [| reflexivity].
  split; [reflexivity |]. intros _.
  rewrite scene_run_app. unfold scene_run at 1. cbn [fold_left scene_apply].
  apply elem_of_union. left. now apply elem_of_singleton.
Qed.

Lemma Web_run_frame_synced
    (e : Engine) (rnd : Q -> Q) (f : Frame) (w w' : World Web.SandboxApp) :
  Web.light_synced w ->
  run_frame (Web.animate rnd) (Web.ui_app e) f w = Some w' ->
  Web.light_synced w'.
Proof.
  intros [Inv _] R. apply Web_run_frame_eq in R as (P & S & _).
  destruct (Web_ui_light_step e (frame_input f) (Web.params (world_app w))
              (world_scene w) Inv) as (L & Sy & In & _).
  unfold Web.light_synced. rewrite P, S, L, Sy. split; [exact In | reflexivity].
Qed.

Lemma Web_run_frames_synced
    (e : Engine) (rnd : Q -> Q) (fs : list Frame) (w w' : World Web.SandboxApp) :
  Web.light_synced w ->
  run_frames (Web.animate rnd) (Web.ui_app e) fs w = Some w' ->
  Web.light_synced w'.
Proof.
  revert w. induction fs as [| f fs IH]; intros w Inv R; simpl in R.
  - now injection R as <-.
  - destruct (run_frame (Web.animate rnd) (Web.ui_app e) f w) as [w1 |] eqn:F;
      [| discriminate].
    apply (IH w1); [| exact R].
    now apply (Web_run_frame_synced e rnd f w).
Qed.

(** C8: in any state the web sandbox's loop reaches, one more frame leaves
    [hasDirectionalLight] equal to the toggle [directionalLightEnabled] and
    the light entity in the scene exactly when the toggle is set; [ui] issues
    a scene add or remove for the light exactly when the toggle differs from
    the flag it finds, and no other scene add or remove. *)
Theorem ui_keeps_light_in_sync
    (e : Engine) (rnd : Q -> Q) (fs : list Frame) (f : Frame)
    (w w' : World Web.SandboxApp) :
  Web.launch e rnd fs = Some w ->
  run_frame (Web.animate rnd) (Web.ui_app e) f w = Some w' ->
  Web.hasDirectionalLight (Web.params (world_app w')) =
    Web.directionalLightEnabled (Web.params (world_app w')) /\
  (Web.light (Web.params (world_app w')) ∈ world_scene w' <->
   Web.directionalLightEnabled (Web.params (world_app w')) = true) /\
  List.filter is_scene_edit
    (snd (Web.ui e (frame_input f) (Web.params (world_app w)))) =
    (if Bool.eqb (Web.directionalLightEnabled (Web.params (world_app w')))
                 (Web.hasDirectionalLight (Web.params (world_app w)))
     then []
     else [ if Web.directionalLightEnabled (Web.params (world_app w'))
            then Scene_addEntity (Web.light (Web.params (world_app w)))
            else Scene_remove (Web.light (Web.params (world_app w))) ]).
Proof.
  intros Hw Hf.
  assert (Inv : Web.light_synced w).
  { apply (Web_run_frames_synced e rnd fs _ w (Web_setup_synced e)). exact Hw. }
  pose proof (Web_run_frame_synced e rnd f w w' Inv Hf) as [In' Sy'].
  apply Web_run_frame_eq in Hf as (P & _ & _).
  destruct Inv as [Inv _].
  destruct (Web_ui_light_step e (frame_input f) (Web.params (world_app w))
              (world_scene w) Inv) as (_ & _ & _ & E).
  split; [exact Sy' |]. split; [now rewrite <- Sy' |].
  rewrite P. exact E.
Qed.

Lemma ui_keeps_light_in_sync_witness :
  exists w w' : World Web.SandboxApp,
    Web.launch engine0 rnd_exact [] = Some w /\
    run_frame (Web.animate rnd_exact) (Web.ui_app engine0) frame0 w = Some w' /\
    Web.hasDirectionalLight (Web.params (world_app w')) =
      Web.directionalLightEnabled (Web.params (world_app w')) /\
    (Web.light (Web.params (world_app w')) ∈ world_scene w' <->
     Web.directionalLightEnabled (Web.params (world_app w')) = true) /\
    List.filter is_scene_edit
      (snd (Web.ui engine0 (frame_input frame0) (Web.params (world_app w)))) =
      (if Bool.eqb (Web.directionalLightEnabled (Web.params (world_app w')))
                   (Web.hasDirectionalLight (Web.params (world_app w)))
       then []
       else [ if Web.directionalLightEnabled (Web.params (world_app w'))
              then Scene_addEntity (Web.light (Web.params (world_app w)))
              else Scene_remove (Web.light (Web.params (world_app w))) ]).
Proof.
  destruct (run_frame (Web.animate rnd_exact) (Web.ui_app engine0) frame0
              (run_setup (Web.setup engine0) Web.app0)) as [w' |] eqn:F.
  - exists (run_setup (Web.setup engine0) Web.app0), w'.
    exact (conj eq_refl (conj F
             (ui_keeps_light_in_sync engine0 rnd_exact [] frame0 _ w' eq_refl F))).
  - exfalso. unfold run_frame in F.
    change (Web.animate rnd_exact (frame_viewport frame0) (frame_now frame0)
              (world_previous (run_setup (Web.setup engine0) Web.app0)))
      with (Some (Some 0%Q, [ Camera_setProjection 45 (800 / 600) (1 # 10) 50 VERTICAL ]))
      in F.
    destruct (Web.ui_app engine0 (frame_input frame0)
                (world_app (run_setup (Web.setup engine0) Web.app0))) in F.
    discriminate F.
Defined.

(** ** The order of the callbacks *)

Section RunLog.
Context {App : Type}.
Variable setup : App -> App * list EngineCall.
Variable animate : Viewport -> Q -> option Q -> option (option Q * list EngineCall).
Variable ui : UiInput -> App -> App * list EngineCall.
Hypothesis animate_defined :
  forall vp now previous, height vp <> 0 -> animate vp now previous <> None.

Lemma run_frame_log (f : Frame) (w w' : World App) :
  run_frame animate ui f w = Some w' ->
  world_log w' = world_log w ++ [CbAnimate; CbUi].
Proof.
  unfold run_frame.
  destruct (animate _ _ _) as [[previous calls] |]; [| discriminate].
  destruct (ui _ _). now intros [= <-].
Qed.

Lemma run_frame_total (f : Frame) (w : World App) :
  height (frame_viewport f) <> 0 -> exists w', run_frame animate ui f w = Some w'.
Proof.
  intros H. unfold run_frame.
  pose proof (animate_defined (frame_viewport f) (frame_now f) (world_previous w) H) as D.
  destruct (animate _ _ _) as [[previous calls] |]; [| contradiction].
  destruct (ui _ _). eexists. reflexivity.
Qed.

Lemma run_frames_log (fs : list Frame) (w : World App) :
  Forall (fun f => height (frame_viewport f) <> 0) fs ->
  exists w', run_frames animate ui fs w = Some w' /\
             world_log w' = world_log w ++ flat_map (fun _ => [CbAnimate; CbUi]) fs.
Proof.
  intros H. revert w. induction H as [| f fs Hf _ IH]; intros w.
  - exists w. split; [reflexivity |]. simpl. now rewrite app_nil_r.
  - destruct (run_frame_total f w Hf) as [w1 F].
    destruct (IH w1) as (w' & R & L).
    exists w'. simpl. rewrite F. split; [exact R |].
    rewrite L, (run_frame_log f w w1 F), <- app_assoc. reflexivity.
Qed.

Lemma run_log (app : App) (fs : list Frame) :
  Forall (fun f => height (frame_viewport f) <> 0) fs ->
  exists w, run setup animate ui app fs = Some w /\
            world_log w = CbSetup :: flat_map (fun _ => [CbAnimate; CbUi]) fs.
Proof.
  intros H. unfold run.
  destruct (run_frames_log fs (run_setup setup app) H) as (w & R & L).
  exists w. split; [exact R |]. rewrite L.
  unfold run_setup. destruct (setup app). reflexivity.
Qed.
End RunLog.




Lemma animate_projection_witness :
  (0 <= width (frame_viewport frame0) <= UINT32_MAX) /\
  (0 < height (frame_viewport frame0) <= UINT32_MAX) /\
  exists (ratio : Q) (dir : Fov),
    Web.animate rnd_exact (frame_viewport frame0) 0 None =
      Some (init_previous None 0,
            [ Camera_setProjection 45 ratio (1 # 10) 50 dir ]) /\
    Legacy.animate rnd_exact (frame_viewport frame0) 0 None =
      Some (init_previous None 0,
            [ Camera_setProjection 45 ratio (1 # 10) 50 dir; setTransform 0 ]) /\
    ratio = rnd_exact (inject_Z (width (frame_viewport frame0)) /
                       inject_Z (height (frame_viewport frame0)))%Q /\
    (dir = HORIZONTAL <->
     (inject_Z (width (frame_viewport frame0)) /
      inject_Z (height (frame_viewport frame0)) < 1)%Q) /\
    (dir = VERTICAL <->
     ~ (inject_Z (width (frame_viewport frame0)) /
        inject_Z (height (frame_viewport frame0)) < 1)%Q).
Proof.
  assert (Hw : 0 <= width (frame_viewport frame0) <= UINT32_MAX)
    by (unfold UINT32_MAX; simpl; lia).
  assert (Hh : 0 < height (frame_viewport frame0) <= UINT32_MAX)
    by (unfold UINT32_MAX; simpl; lia).
  refine (conj Hw (conj Hh
            (animate_projection rnd_exact _ _ _ (frame_viewport frame0) 0 None Hw Hh))).
  - intros a b H. exact H.
  - reflexivity.
  - reflexivity.
Defined.

(** ** The material slot and the material instance *)

Ltac enumerate_menu m b :=
  let Hm := fresh in let Hb := fresh in
  assert (Hm : m = 0 \/ m = 1 \/ m = 2 \/ m = 3) by lia;
  assert (Hb : b = 0 \/ b = 1 \/ b = 2) by lia;
  destruct Hm as [-> | [-> | [-> | ->]]]; destruct Hb as [-> | [-> | ->]].

Lemma Legacy_material_index_claimed (p : Legacy.SandboxParameters) :
  Legacy.combo_ranges p ->
  claimed_material (Legacy.currentMaterialModel p) (Legacy.currentBlending p) =
  Some (Legacy.material_index p).
Proof.
  unfold Legacy.combo_ranges, Legacy.material_index.
  generalize (Legacy.currentMaterialModel p) (Legacy.currentBlending p).
  intros m b [Hm Hb]. enumerate_menu m b; reflexivity.
Qed.

Lemma Web_material_index_claimed (p : Web.SandboxParameters) :
  Web.combo_ranges p ->
  claimed_material (Web.currentMaterialModel p) (Web.currentBlending p) =
  Some (Web.material_index p).
Proof.
  unfold Web.combo_ranges, Web.material_index.
  generalize (Web.currentMaterialModel p) (Web.currentBlending p).
  intros m b [Hm Hb]. enumerate_menu m b; reflexivity.
Qed.

Lemma Web_ui_instance (e : Engine) (i : UiInput) (p : Web.SandboxParameters) :
  List.filter (fun c => match c with setMaterialInstanceAt _ _ => true | _ => false end)
    (snd (Web.ui e i p)) =
  map (fun k => setMaterialInstanceAt k (Slot (Web.material_index (fst (Web.ui e i p)))))
    (seq 0 (primitiveCount e)).
Proof.
  assert (M : Web.material_index (fst (Web.ui e i p)) =
              Web.material_index (Web.ui_panel i p)).
  { rewrite Web_ui_fst, sync_light_cases. destruct (Bool.eqb _ _); reflexivity. }
  rewrite M, Web_ui_snd. generalize (Web.material_index (Web.ui_panel i p)) as m.
  intros m. rewrite !List.filter_app.
  assert (A : List.filter
                (fun c => match c with setMaterialInstanceAt _ _ => true | _ => false end)
                (Web.push_material (Slot m) (Web.ui_panel i p)) = []).
  { unfold Web.push_material.
    destruct (Web.currentMaterialModel (Web.ui_panel i p) =? MATERIAL_MODEL_UNLIT),
             (Web.currentMaterialModel (Web.ui_panel i p) =? MATERIAL_MODEL_LIT),
             (negb (Web.currentBlending (Web.ui_panel i p) =? BLENDING_OPAQUE)),
             (Web.currentMaterialModel (Web.ui_panel i p) =? MATERIAL_MODEL_SUBSURFACE),
             (Web.currentMaterialModel (Web.ui_panel i p) =? MATERIAL_MODEL_CLOTH);
      reflexivity. }
  assert (B : List.filter
                (fun c => match c with setMaterialInstanceAt _ _ => true | _ => false end)
                (snd (Web.sync_light (Web.ui_panel i p))) = []).
  { rewrite sync_light_cases. destruct (Bool.eqb _ _); [reflexivity |].
    destruct (Web.directionalLightEnabled (Web.ui_panel i p)); reflexivity. }
  rewrite A, B. simpl. rewrite app_nil_r.
  induction (seq 0 (primitiveCount e)) as [| k l IH]; [reflexivity |].
  simpl. now rewrite IH.
Qed.

(** C2 (as amended): the "model" combo offers exactly unlit, lit,
    subsurface and cloth, at the indices 0 to 3 of the MATERIAL_MODEL_
    constants.  In every record the program can hold, the material slot that
    is computed is the one claimed: unlit, subsurface and cloth have their
    own, lit has the lit, transparent or fade slot after the blending.  The
    web sandbox hands the instance of that slot to the renderable; the
    self-contained sandbox computes the slot and then uses its one instance,
    [app.mi], whatever the slot. *)
Theorem material_model_mapping
    (e : Engine) (i : UiInput)
    (pl : Legacy.SandboxParameters) (pw : Web.SandboxParameters) :
  Legacy.reachable pl ->
  Web.reachable e pw ->
  combo_items model_items = ["unlit"; "lit"; "subsurface"; "cloth"]%string /\
  (nth_error (combo_items model_items) (Z.to_nat MATERIAL_MODEL_UNLIT) = Some "unlit"%string /\
   nth_error (combo_items model_items) (Z.to_nat MATERIAL_MODEL_LIT) = Some "lit"%string /\
   nth_error (combo_items model_items) (Z.to_nat MATERIAL_MODEL_SUBSURFACE)
     = Some "subsurface"%string /\
   nth_error (combo_items model_items) (Z.to_nat MATERIAL_MODEL_CLOTH) = Some "cloth"%string) /\
  combo_items blending_items = ["opaque"; "transparent"; "fade"]%string /\
  (claimed_material (Web.currentMaterialModel pw) (Web.currentBlending pw) =
     Some (Web.material_index pw) /\
   fst (Web.updateInstances pw) = Slot (Web.material_index pw) /\
   List.filter (fun c => match c with setMaterialInstanceAt _ _ => true | _ => false end)
     (snd (Web.ui e i pw)) =
   map (fun k => setMaterialInstanceAt k (Slot (Web.material_index (fst (Web.ui e i pw)))))
     (seq 0 (primitiveCount e))) /\
  (claimed_material (Legacy.currentMaterialModel pl) (Legacy.currentBlending pl) =
     Some (Legacy.material_index pl) /\
   Legacy.selected_instance pl = AppMi).
Proof.
  intros Hl Hw.
  apply Legacy_reachable_inv in Hl as [_ Cl].
  apply (Web_reachable_inv e) in Hw as (_ & Cw & _).
  split; [reflexivity |]. split; [repeat split |]. split; [reflexivity |].
  split; [| split; [now apply Legacy_material_index_claimed | reflexivity]].
  split; [now apply Web_material_index_claimed |].
  split; [reflexivity | apply Web_ui_instance].
Qed.

Lemma material_model_mapping_witness :
  Legacy.reachable
    (fst (Legacy.ui (pick (Some 1%nat) (Some 2%nat) None) Legacy.defaults)) /\
  Web.reachable engine0
    (fst (Web.ui engine0 (pick (Some 1%nat) (Some 2%nat) None)
            (Web.params (fst (Web.setup engine0 Web.app0))))) /\
  Web.material_index
    (fst (Web.ui engine0 (pick (Some 1%nat) (Some 2%nat) None)
            (Web.params (fst (Web.setup engine0 Web.app0))))) = MATERIAL_FADE /\
  claimed_material
    (Legacy.currentMaterialModel
       (fst (Legacy.ui (pick (Some 1%nat) (Some 2%nat) None) Legacy.defaults)))
    (Legacy.currentBlending
       (fst (Legacy.ui (pick (Some 1%nat) (Some 2%nat) None) Legacy.defaults))) =
  Some (Legacy.material_index
          (fst (Legacy.ui (pick (Some 1%nat) (Some 2%nat) None) Legacy.defaults))).
Proof.
  assert (Hl : Legacy.reachable
    (fst (Legacy.ui (pick (Some 1%nat) (Some 2%nat) None) Legacy.defaults)))
    by (apply Legacy.reach_ui, (Legacy.reach_setup engine0)).
  assert (Hw : Web.reachable engine0
    (fst (Web.ui engine0 (pick (Some 1%nat) (Some 2%nat) None)
            (Web.params (fst (Web.setup engine0 Web.app0))))))
    by (apply Web.reach_ui, Web.reach_setup).
  split; [exact Hl |]. split; [exact Hw |]. split; [reflexivity |].
  exact (proj1 (proj2 (proj2 (proj2 (proj2
           (material_model_mapping engine0 idle _ _ Hl Hw)))))).
Defined.

(** C2, the part that fails: in the self-contained sandbox picking "unlit"
    changes the slot that is computed (0 instead of 1) but not the instance:
    the base color still goes to [app.mi], the instance that lit uses. *)
Lemma legacy_unlit_shares_the_lit_instance :
  Legacy.currentMaterialModel
    (fst (Legacy.ui (pick (Some 0%nat) None None) Legacy.defaults)) = MATERIAL_MODEL_UNLIT /\
  Legacy.currentMaterialModel (fst (Legacy.ui idle Legacy.defaults)) = MATERIAL_MODEL_LIT /\
  Legacy.material_index
    (fst (Legacy.ui (pick (Some 0%nat) None None) Legacy.defaults)) = MATERIAL_UNLIT /\
  Legacy.material_index (fst (Legacy.ui idle Legacy.defaults)) = MATERIAL_LIT /\
  snd (Legacy.ui (pick (Some 0%nat) None None) Legacy.defaults) =
    [ setParameter AppMi "baseColor" (PsRGB (Float3 (69 # 100) (69 # 100) (69 # 100))) ] /\
  hd_error (snd (Legacy.ui idle Legacy.defaults)) =
    Some (setParameter AppMi "baseColor" (PsRGB (Float3 (69 # 100) (69 # 100) (69 # 100)))) /\
  Legacy.selected_instance
    (fst (Legacy.ui (pick (Some 0%nat) None None) Legacy.defaults)) =
  Legacy.selected_instance (fst (Legacy.ui idle Legacy.defaults)).
Proof. repeat split. Qed.

(** ** What [ui] pushes into the engine *)






Lemma filter_primitives (f : EngineCall -> bool) (mi : MaterialInstance) (l : list nat) :
  (forall k, f (setMaterialInstanceAt k mi) = false) ->
  List.filter f (map (fun k => setMaterialInstanceAt k mi) l) = [].
Proof.
  intros H. induction l as [| k l IH]; [reflexivity |].
  simpl. now rewrite H.
Qed.

Lemma filter_sync (f : EngineCall -> bool) (p : Web.SandboxParameters) :
  (forall x, f (Scene_addEntity x) = false) ->
  (forall x, f (Scene_remove x) = false) ->
  List.filter f (snd (Web.sync_light p)) = [].
Proof.
  intros Ha Hr. rewrite sync_light_cases. destruct (Bool.eqb _ _); [reflexivity |].
  destruct (Web.directionalLightEnabled p); simpl; now rewrite ?Ha, ?Hr.
Qed.

Lemma sync_light_fst (p : Web.SandboxParameters) :
  fst (Web.sync_light p) =
  Web.set_hasDirectionalLight (Web.directionalLightEnabled p) p.
Proof.
  rewrite sync_light_cases.
  destruct (Bool.eqb _ _) eqn:E; [| reflexivity].
  apply Bool.eqb_prop in E. destruct p; simpl in *. now subst.
Qed.

(** The calls of the web [ui], in terms of the record it leaves. *)
Lemma Web_ui_calls (e : Engine) (i : UiInput) (p : Web.SandboxParameters) :
  snd (Web.ui e i p) =
  (Web.push_material (Slot (Web.material_index (fst (Web.ui e i p)))) (fst (Web.ui e i p)) ++
   Web.push_light (fst (Web.ui e i p))) ++
  map (fun k => setMaterialInstanceAt k (Slot (Web.material_index (fst (Web.ui e i p)))))
      (seq 0 (primitiveCount e)) ++
  [ setCastShadows (Web.castShadows (fst (Web.ui e i p))) ] ++
  snd (Web.sync_light (Web.ui_panel i p)) ++
  [ IndirectLight_setIntensity (Web.iblIntensity (fst (Web.ui e i p)));
    IndirectLight_setRotation (Web.iblRotation (fst (Web.ui e i p))) (Float3 0 1 0) ].
Proof.
  rewrite Web_ui_snd, Web_ui_fst, sync_light_fst. reflexivity.
Qed.




(** ** The initial record *)






(** ** The fields of the record and the rest of the state *)






(** ** The fragment shader *)


(** * Further properties of the code *)

(** ** The material slot *)

(** X1: for a record whose combo fields are on the menus, the slot computed
    from model and blending is a valid index of the MATERIAL_COUNT
    instances, in both files. *)
Theorem material_index_in_bounds
    (pl : Legacy.SandboxParameters) (pw : Web.SandboxParameters) :
  Legacy.combo_ranges pl ->
  Web.combo_ranges pw ->
  0 <= Legacy.material_index pl < MATERIAL_COUNT /\
  0 <= Web.material_index pw < MATERIAL_COUNT.
Proof.
  unfold Legacy.combo_ranges, Web.combo_ranges, Legacy.material_index,
    Web.material_index.
  generalize (Legacy.currentMaterialModel pl) (Legacy.currentBlending pl)
             (Web.currentMaterialModel pw) (Web.currentBlending pw).
  intros m b m' b' [Hm Hb] [Hm' Hb'].
  split.
  - enumerate_menu m b; cbv; split; easy.
  - enumerate_menu m' b'; cbv; split; easy.
Qed.

Lemma material_index_in_bounds_witness :
  Legacy.combo_ranges (fst (Legacy.ui (pick (Some 1%nat) (Some 2%nat) None) Legacy.defaults)) /\
  Web.combo_ranges Web.defaults /\
  0 <= Legacy.material_index
         (fst (Legacy.ui (pick (Some 1%nat) (Some 2%nat) None) Legacy.defaults))
    < MATERIAL_COUNT /\
  0 <= Web.material_index Web.defaults < MATERIAL_COUNT.
Proof.
  assert (Hl : Legacy.combo_ranges
                 (fst (Legacy.ui (pick (Some 1%nat) (Some 2%nat) None) Legacy.defaults)))
    by (vm_compute; repeat split; easy).
  assert (Hw : Web.combo_ranges Web.defaults)
    by (vm_compute; repeat split; easy).
  exact (conj Hl (conj Hw (material_index_in_bounds _ _ Hl Hw))).
Defined.

(** X2: on the menus, two records get the same slot exactly when they have
    the same material model and, if that model is lit, the same blending:
    the blending is ignored for unlit, subsurface and cloth. *)
Theorem material_index_separates
    (p q : Legacy.SandboxParameters) :
  Legacy.combo_ranges p ->
  Legacy.combo_ranges q ->
  (Legacy.material_index p = Legacy.material_index q <->
   Legacy.currentMaterialModel p = Legacy.currentMaterialModel q /\
   (Legacy.currentMaterialModel p = MATERIAL_MODEL_LIT ->
    Legacy.currentBlending p = Legacy.currentBlending q)).
Proof.
  unfold Legacy.combo_ranges, Legacy.material_index.
  generalize (Legacy.currentMaterialModel p) (Legacy.currentBlending p)
             (Legacy.currentMaterialModel q) (Legacy.currentBlending q).
  intros m b m' b' [Hm Hb] [Hm' Hb'].
  enumerate_menu m b; enumerate_menu m' b'; cbv;
  (split;
    [ intros H;
      first [ discriminate H
            | split; [reflexivity | intros H1; first [reflexivity | discriminate H1]] ]
    | intros [E1 E2];
      first [ reflexivity | discriminate E1
            | specialize (E2 eq_refl); discriminate E2 ] ]).
Qed.

Lemma material_index_separates_witness :
  Legacy.combo_ranges (fst (Legacy.ui (pick (Some 2%nat) None None) Legacy.defaults)) /\
  Legacy.combo_ranges Legacy.defaults /\
  Legacy.material_index (fst (Legacy.ui (pick (Some 2%nat) None None) Legacy.defaults))
    <> Legacy.material_index Legacy.defaults.
Proof.
  assert (Hp : Legacy.combo_ranges
                 (fst (Legacy.ui (pick (Some 2%nat) None None) Legacy.defaults)))
    by (vm_compute; repeat split; easy).
  assert (Hq : Legacy.combo_ranges Legacy.defaults)
    by (vm_compute; repeat split; easy).
  split; [exact Hp |]. split; [exact Hq |].
  intros E. apply (material_index_separates _ _ Hp Hq) in E as [E _].
  discriminate E.
Defined.

(** ** The panel and the material block of the self-contained sandbox *)

Lemma Legacy_ui_eq (i : UiInput) (p : Legacy.SandboxParameters) :
  Legacy.ui i p =
  (Legacy.ui_panel i p, Legacy.push_material AppMi (Legacy.ui_panel i p)).
Proof. reflexivity. Qed.


Ltac pushed_or_kept :=
  first [ left; solve [simpl; auto 12] | right; reflexivity ].

(** X4: in the self-contained sandbox, on the menus, a frame changes a
    material field other than alpha only if it pushes that field to the
    engine in the same frame: no widget is shown for a parameter the current
    model does not send. *)
Theorem legacy_edited_field_is_pushed
    (i : UiInput) (p : Legacy.SandboxParameters) :
  Legacy.combo_ranges p ->
  (In "baseColor"%string (pushed_names (snd (Legacy.ui i p))) \/
   Legacy.color (fst (Legacy.ui i p)) = Legacy.color p) /\
  (In "roughness"%string (pushed_names (snd (Legacy.ui i p))) \/
   Legacy.roughness (fst (Legacy.ui i p)) = Legacy.roughness p) /\
  (In "metallic"%string (pushed_names (snd (Legacy.ui i p))) \/
   Legacy.metallic (fst (Legacy.ui i p)) = Legacy.metallic p) /\
  (In "reflectance"%string (pushed_names (snd (Legacy.ui i p))) \/
   Legacy.reflectance (fst (Legacy.ui i p)) = Legacy.reflectance p) /\
  (In "clearCoat"%string (pushed_names (snd (Legacy.ui i p))) \/
   Legacy.clearCoat (fst (Legacy.ui i p)) = Legacy.clearCoat p) /\
  (In "clearCoatRoughness"%string (pushed_names (snd (Legacy.ui i p))) \/
   Legacy.clearCoatRoughness (fst (Legacy.ui i p)) = Legacy.clearCoatRoughness p) /\
  (In "anisotropy"%string (pushed_names (snd (Legacy.ui i p))) \/
   Legacy.anisotropy (fst (Legacy.ui i p)) = Legacy.anisotropy p) /\
  (In "thickness"%string (pushed_names (snd (Legacy.ui i p))) \/
   Legacy.thickness (fst (Legacy.ui i p)) = Legacy.thickness p) /\
  (In "subsurfacePower"%string (pushed_names (snd (Legacy.ui i p))) \/
   Legacy.subsurfacePower (fst (Legacy.ui i p)) = Legacy.subsurfacePower p) /\
  (In "subsurfaceColor"%string (pushed_names (snd (Legacy.ui i p))) \/
   Legacy.subsurfaceColor (fst (Legacy.ui i p)) = Legacy.subsurfaceColor p) /\
  (In "sheenColor"%string (pushed_names (snd (Legacy.ui i p))) \/
   Legacy.sheenColor (fst (Legacy.ui i p)) = Legacy.sheenColor p).
Proof.
  intros Hc. pose proof (Legacy_ui_panel_combos i p Hc) as [Hm _].
  rewrite Legacy_ui_eq. cbn [fst snd].
  unfold Legacy.push_material.
  unfold Legacy.ui_panel in *. cbv zeta in *.
  cbn [Legacy.color Legacy.roughness Legacy.metallic Legacy.reflectance
       Legacy.clearCoat Legacy.clearCoatRoughness Legacy.anisotropy
       Legacy.thickness Legacy.subsurfacePower Legacy.subsurfaceColor
       Legacy.sheenColor Legacy.currentMaterialModel Legacy.currentBlending] in *.
  set (M := if open_Material i
            then Combo (pick_model i) (Legacy.currentMaterialModel p) model_items
            else Legacy.currentMaterialModel p) in *.
  assert (HM : M = 0 \/ M = 1 \/ M = 2 \/ M = 3) by lia.
  clearbody M.
  destruct HM as [-> | [-> | [-> | ->]]]; destruct (open_Material i);
    cbn -[Combo SliderFloat ColorEdit3];
    repeat split; pushed_or_kept.
Qed.

Lemma legacy_edited_field_is_pushed_witness :
  Legacy.combo_ranges Legacy.defaults /\
  (In "roughness"%string (pushed_names (snd (Legacy.ui overdrag Legacy.defaults))) \/
   Legacy.roughness (fst (Legacy.ui overdrag Legacy.defaults)) =
   Legacy.roughness Legacy.defaults).
Proof.
  assert (H : Legacy.combo_ranges Legacy.defaults)
    by (vm_compute; repeat split; easy).
  exact (conj H (proj1 (proj2 (legacy_edited_field_is_pushed overdrag _ H)))).
Defined.

(** X5: alpha is the exception.  Under subsurface or cloth, with the
    blending left at transparent or fade, the panel shows the alpha slider
    and an edit lands in the record, clamped to [0,1], yet the frame pushes
    no alpha: only lit sends it. *)
Theorem legacy_alpha_edited_but_not_pushed
    (i : UiInput) (p : Legacy.SandboxParameters) (a : Q) :
  open_Material i = true ->
  pick_model i = None ->
  edit_alpha i = Some a ->
  Legacy.currentMaterialModel p = MATERIAL_MODEL_SUBSURFACE \/
  Legacy.currentMaterialModel p = MATERIAL_MODEL_CLOTH ->
  Legacy.currentBlending p = BLENDING_TRANSPARENT \/
  Legacy.currentBlending p = BLENDING_FADE ->
  Legacy.alpha (fst (Legacy.ui i p)) = clamp 0 1 a /\
  ~ In "alpha"%string (pushed_names (snd (Legacy.ui i p))).
Proof.
  intros Ho Hp Ha Hm Hb.
  rewrite Legacy_ui_eq. cbn [fst snd].
  unfold Legacy.push_material.
  unfold Legacy.ui_panel. cbv zeta.
  cbn [Legacy.alpha Legacy.currentMaterialModel Legacy.currentBlending].
  rewrite Ho, Hp, Ha. cbn [Combo].
  destruct Hm as [-> | ->]; destruct Hb as [-> | ->]; cbn;
    (split; [reflexivity |]);
    intros H; repeat (destruct H as [H | H]; [discriminate H |]); exact H.
Qed.

Lemma legacy_alpha_edited_but_not_pushed_witness :
  Legacy.alpha
    (fst (Legacy.ui (pick None None (Some (1 # 2)))
            (fst (Legacy.ui (pick (Some 2%nat) None None)
                    (fst (Legacy.ui (pick (Some 1%nat) (Some 1%nat) None)
                            Legacy.defaults)))))) = clamp 0 1 (1 # 2) /\
  ~ In "alpha"%string
      (pushed_names
         (snd (Legacy.ui (pick None None (Some (1 # 2)))
                 (fst (Legacy.ui (pick (Some 2%nat) None None)
                         (fst (Legacy.ui (pick (Some 1%nat) (Some 1%nat) None)
                                 Legacy.defaults))))))).
Proof.
  exact (legacy_alpha_edited_but_not_pushed
           (pick None None (Some (1 # 2)))
           (fst (Legacy.ui (pick (Some 2%nat) None None)
                   (fst (Legacy.ui (pick (Some 1%nat) (Some 1%nat) None)
                           Legacy.defaults))))
           (1 # 2) eq_refl eq_refl eq_refl (or_introl eq_refl) (or_introl eq_refl)).
Defined.

(** X6: the blending changes only in a frame that ends with the lit model
    selected (the "blending" combo is shown for lit alone), in both files;
    under any other model the last blending is kept. *)
Theorem blending_changes_only_under_lit
    (e : Engine) (i : UiInput)
    (pl : Legacy.SandboxParameters) (pw : Web.SandboxParameters) :
  (Legacy.currentBlending (fst (Legacy.ui i pl)) = Legacy.currentBlending pl \/
   Legacy.currentMaterialModel (fst (Legacy.ui i pl)) = MATERIAL_MODEL_LIT) /\
  (Web.currentBlending (fst (Web.ui e i pw)) = Web.currentBlending pw \/
   Web.currentMaterialModel (fst (Web.ui e i pw)) = MATERIAL_MODEL_LIT).
Proof.
  split.
  - rewrite Legacy_ui_eq. cbn [fst]. unfold Legacy.ui_panel. cbv zeta.
    cbn [Legacy.currentBlending Legacy.currentMaterialModel].
    destruct (open_Material i); [| left; reflexivity].
    destruct (Z.eqb_spec (Combo (pick_model i) (Legacy.currentMaterialModel pl) model_items)
                MATERIAL_MODEL_LIT) as [E | E]; [right; exact E | left; reflexivity].
  - rewrite Web_ui_fst, sync_light_fst.
    cbn [Web.set_hasDirectionalLight Web.currentBlending Web.currentMaterialModel].
    unfold Web.ui_panel. cbv zeta.
    cbn [Web.currentBlending Web.currentMaterialModel].
    destruct (open_Material i); [| left; reflexivity].
    destruct (Z.eqb_spec (Combo (pick_model i) (Web.currentMaterialModel pw) model_items)
                MATERIAL_MODEL_LIT) as [E | E]; [right; exact E | left; reflexivity].
Qed.

(** ** The two panels *)

(** X7: the panel of the web sandbox edits the shared fields exactly as the
    panel of the self-contained sandbox does: projecting the web record after
    a [ui] frame gives the record the other [ui] computes from the projected
    record, for every input. *)
Theorem web_panel_agrees_with_legacy_panel
    (e : Engine) (i : UiInput) (p : Web.SandboxParameters) :
  Web.to_legacy (fst (Web.ui e i p)) = fst (Legacy.ui i (Web.to_legacy p)).
Proof.
  rewrite Web_ui_fst, sync_light_fst, Legacy_ui_eq. reflexivity.
Qed.

(** ** What the web [ui] sends besides materials and light *)

Lemma filter_object_push_material (mi : MaterialInstance) (p : Web.SandboxParameters) :
  List.filter is_object_or_ibl_call (Web.push_material mi p) = [].
Proof.
  unfold Web.push_material.
  destruct (Web.currentMaterialModel p =? MATERIAL_MODEL_UNLIT),
           (Web.currentMaterialModel p =? MATERIAL_MODEL_LIT),
           (negb (Web.currentBlending p =? BLENDING_OPAQUE)),
           (Web.currentMaterialModel p =? MATERIAL_MODEL_SUBSURFACE),
           (Web.currentMaterialModel p =? MATERIAL_MODEL_CLOTH); reflexivity.
Qed.

(** X8: every frame, whatever the model, the web [ui] sends the record's
    castShadows to the renderable, its iblIntensity to the indirect light and
    its iblRotation as a rotation about the Y axis, once each and in this
    order. *)
Theorem web_ui_pushes_shadows_and_ibl
    (e : Engine) (i : UiInput) (p : Web.SandboxParameters) :
  List.filter is_object_or_ibl_call (snd (Web.ui e i p)) =
  [ setCastShadows (Web.castShadows (fst (Web.ui e i p)));
    IndirectLight_setIntensity (Web.iblIntensity (fst (Web.ui e i p)));
    IndirectLight_setRotation (Web.iblRotation (fst (Web.ui e i p))) (Float3 0 1 0) ].
Proof.
  rewrite Web_ui_calls. rewrite !List.filter_app.
  rewrite filter_object_push_material.
  rewrite filter_primitives by reflexivity.
  rewrite filter_sync by reflexivity.
  reflexivity.
Qed.

(** ** The light toggle, frame after frame *)

Lemma Web_panel_enabled (i : UiInput) (p : Web.SandboxParameters) (b : bool) :
  open_Light i = true -> edit_enabled i = Some b ->
  Web.directionalLightEnabled (Web.ui_panel i p) = b.
Proof.
  intros Ho He. unfold Web.ui_panel. cbv zeta.
  cbn [Web.directionalLightEnabled]. now rewrite Ho, He.
Qed.

(** X9: once flag and toggle agree, the web [ui] touches the scene exactly
    in the frames in which the user flips the "enabled" checkbox; a frame
    that leaves the checkbox alone adds and removes nothing. *)
Theorem scene_edit_iff_checkbox_flipped
    (e : Engine) (i : UiInput) (p : Web.SandboxParameters) :
  Web.hasDirectionalLight p = Web.directionalLightEnabled p ->
  (List.filter is_scene_edit (snd (Web.ui e i p)) = [] <->
   Web.directionalLightEnabled (fst (Web.ui e i p)) = Web.directionalLightEnabled p).
Proof.
  intros S. rewrite Web_ui_scene_edits, Web_ui_fst, sync_light_enabled, sync_light_cases.
  change (Web.hasDirectionalLight (Web.ui_panel i p)) with (Web.hasDirectionalLight p).
  rewrite S.
  destruct (Web.directionalLightEnabled (Web.ui_panel i p)),
           (Web.directionalLightEnabled p); simpl; split; intros H;
    first [reflexivity | discriminate H].
Qed.

Lemma scene_edit_iff_checkbox_flipped_witness :
  Web.hasDirectionalLight (Web.params (fst (Web.setup engine0 Web.app0))) =
  Web.directionalLightEnabled (Web.params (fst (Web.setup engine0 Web.app0))) /\
  List.filter is_scene_edit
    (snd (Web.ui engine0 (quiet true true true)
            (Web.params (fst (Web.setup engine0 Web.app0))))) = [].
Proof.
  exact (conj eq_refl
    (proj2 (scene_edit_iff_checkbox_flipped engine0 (quiet true true true)
              (Web.params (fst (Web.setup engine0 Web.app0))) eq_refl) eq_refl)).
Defined.

Lemma Web_ui_toggle
    (e : Engine) (i : UiInput) (p : Web.SandboxParameters) (b : bool)
    (s : gset Entity) :
  open_Light i = true -> edit_enabled i = Some b ->
  Web.hasDirectionalLight (fst (Web.ui e i p)) = b /\
  Web.directionalLightEnabled (fst (Web.ui e i p)) = b /\
  Web.light (fst (Web.ui e i p)) = Web.light p /\
  scene_run (snd (Web.ui e i p)) s =
    (if Bool.eqb b (Web.hasDirectionalLight p) then s
     else if b then {[ Web.light p ]} ∪ s else s ∖ {[ Web.light p ]}).
Proof.
  intros Ho He.
  pose proof (Web_panel_enabled i p b Ho He) as En.
  rewrite scene_run_filter, Web_ui_scene_edits, Web_ui_fst, sync_light_synced,
    sync_light_enabled, sync_light_fst, sync_light_cases, En.
  change (Web.hasDirectionalLight (Web.ui_panel i p)) with (Web.hasDirectionalLight p).
  change (Web.light (Web.ui_panel i p)) with (Web.light p).
  repeat split.
  destruct (Bool.eqb b (Web.hasDirectionalLight p)); [reflexivity |].
  destruct b; reflexivity.
Qed.

(** X10: unticking "enabled" in one frame and ticking it in a later one is
    a round trip: the light leaves the scene after the first frame, and after
    the second the scene is the set it was and flag and toggle are set
    again, whatever else the two frames edit. *)
Theorem light_off_then_on_restores_scene
    (e : Engine) (off on : UiInput) (p : Web.SandboxParameters) (s : gset Entity) :
  open_Light off = true -> edit_enabled off = Some false ->
  open_Light on = true -> edit_enabled on = Some true ->
  Web.hasDirectionalLight p = true ->
  Web.light p ∈ s ->
  (Web.light p ∉ scene_run (snd (Web.ui e off p)) s) /\
  scene_run (snd (Web.ui e on (fst (Web.ui e off p))))
    (scene_run (snd (Web.ui e off p)) s) = s /\
  Web.hasDirectionalLight (fst (Web.ui e on (fst (Web.ui e off p)))) = true /\
  Web.directionalLightEnabled (fst (Web.ui e on (fst (Web.ui e off p)))) = true.
Proof.
  intros Ho1 He1 Ho2 He2 Has In.
  destruct (Web_ui_toggle e off p false s Ho1 He1) as (H1 & _ & L1 & S1).
  destruct (Web_ui_toggle e on (fst (Web.ui e off p)) true
              (scene_run (snd (Web.ui e off p)) s) Ho2 He2) as (H2 & E2 & _ & S2).
  rewrite S2, H1, L1, S1, Has. cbn [Bool.eqb].
  split; [| split; [| split; assumption]].
  - intros I. apply elem_of_difference in I as [_ N]. apply N. now apply elem_of_singleton.
  - symmetry. now apply union_difference_singleton_L.
Qed.

Lemma light_off_then_on_restores_scene_witness :
  Web.light (Web.params (fst (Web.setup engine0 Web.app0))) ∈
    scene_run (snd (Web.setup engine0 Web.app0)) (∅ : gset Entity) /\
  scene_run
    (snd (Web.ui engine0 frame_on
            (fst (Web.ui engine0 overdrag
                    (Web.params (fst (Web.setup engine0 Web.app0)))))))
    (scene_run
       (snd (Web.ui engine0 overdrag (Web.params (fst (Web.setup engine0 Web.app0)))))
       (scene_run (snd (Web.setup engine0 Web.app0)) (∅ : gset Entity))) =
  scene_run (snd (Web.setup engine0 Web.app0)) (∅ : gset Entity).
Proof.
  assert (I : Web.light (Web.params (fst (Web.setup engine0 Web.app0))) ∈
              scene_run (snd (Web.setup engine0 Web.app0)) (∅ : gset Entity)).
  { apply (proj1 (Web_setup_synced engine0)). reflexivity. }
  exact (conj I (proj1 (proj2
    (light_off_then_on_restores_scene engine0 overdrag frame_on
       (Web.params (fst (Web.setup engine0 Web.app0))) _
       eq_refl eq_refl eq_refl eq_refl eq_refl I)))).
Defined.

(** ** What holds in every state the loop reaches *)

Section RunInvariant.
Context {App : Type}.
Variable animate : Viewport -> Q -> option Q -> option (option Q * list EngineCall).
Variable ui : UiInput -> App -> App * list EngineCall.
Variable P : World App -> Prop.
Hypothesis P_frame :
  forall f w w', P w -> run_frame animate ui f w = Some w' -> P w'.

Lemma run_frames_invariant (fs : list Frame) (w w' : World App) :
  P w -> run_frames animate ui fs w = Some w' -> P w'.
Proof.
  revert w. induction fs as [| f fs IH]; intros w Hw R; simpl in R.
  - now injection R as <-.
  - destruct (run_frame animate ui f w) as [w1 |] eqn:F; [| discriminate].
    apply (IH w1); [| exact R]. now apply (P_frame f w).
Qed.
End RunInvariant.

Lemma Web_animate_defined (rnd : Q -> Q) (vp : Viewport) (now : Q) (previous : option Q) :
  height vp <> 0 -> Web.animate rnd vp now previous <> None.
Proof.
  intros H N. now apply H, (proj1 (animate_None_iff rnd vp now previous)).
Qed.

Lemma Legacy_animate_defined (rnd : Q -> Q) (vp : Viewport) (now : Q) (previous : option Q) :
  height vp <> 0 -> Legacy.animate rnd vp now previous <> None.
Proof.
  intros H N. now apply H, (proj2 (animate_None_iff rnd vp now previous)).
Qed.

Lemma Web_setup_scene (e : Engine) :
  world_scene (run_setup (Web.setup e) Web.app0) =
  {[ created_light e ]} ∪ ({[ mesh_renderable e ]} ∪ ∅).
Proof.
  unfold run_setup, Web.setup, Web.createInstances.
  cbn [world_scene Web.params Web.light Web.set_light Web.app0].
  rewrite scene_run_app, (scene_run_no_edit _ ∅) by reflexivity.
  reflexivity.
Qed.

Lemma Web_ui_light_kept (e : Engine) (i : UiInput) (p : Web.SandboxParameters) :
  Web.light (fst (Web.ui e i p)) = Web.light p.
Proof. rewrite Web_ui_fst, sync_light_fst. reflexivity. Qed.

Lemma Web_ui_scene (e : Engine) (i : UiInput) (p : Web.SandboxParameters)
    (s : gset Entity) :
  scene_run (snd (Web.ui e i p)) s = s \/
  scene_run (snd (Web.ui e i p)) s = {[ Web.light p ]} ∪ s \/
  scene_run (snd (Web.ui e i p)) s = s ∖ {[ Web.light p ]}.
Proof.
  rewrite scene_run_filter, Web_ui_scene_edits, sync_light_cases.
  change (Web.light (Web.ui_panel i p)) with (Web.light p).
  destruct (Bool.eqb _ _); [left; reflexivity |].
  destruct (Web.directionalLightEnabled (Web.ui_panel i p));
    [right; left | right; right]; reflexivity.
Qed.

(** X11: if the engine gives the sun an entity other than the mesh's, then
    over any frames with a viewport of nonzero height the web sandbox's loop
    returns with the mesh renderable still in the scene, and the scene holds
    nothing but the mesh and the light: toggling the light never removes
    the mesh. *)
Theorem web_mesh_stays_in_scene
    (e : Engine) (rnd : Q -> Q) (fs : list Frame) :
  created_light e <> mesh_renderable e ->
  Forall (fun f => height (frame_viewport f) <> 0) fs ->
  exists w : World Web.SandboxApp,
    Web.launch e rnd fs = Some w /\
    mesh_renderable e ∈ world_scene w /\
    (forall x, x ∈ world_scene w -> x = mesh_renderable e \/ x = created_light e).
Proof.
  intros Hne Hfs.
  destruct (run_log (Web.setup e) (Web.animate rnd) (Web.ui_app e)
              (Web_animate_defined rnd) Web.app0 fs Hfs) as (w & R & _).
  exists w. split; [exact R |].
  pose (P := fun w : World Web.SandboxApp =>
               Web.light (Web.params (world_app w)) = created_light e /\
               mesh_renderable e ∈ world_scene w /\
               (forall x, x ∈ world_scene w ->
                          x = mesh_renderable e \/ x = created_light e)).
  assert (HP : P w).
  { apply (run_frames_invariant (Web.animate rnd) (Web.ui_app e) P) with
      (fs := fs) (w := run_setup (Web.setup e) Web.app0); [| | exact R].
    - intros f w0 w1 (L & M & Sub) F.
      apply Web_run_frame_eq in F as (Pa & Sc & _).
      unfold P. rewrite Pa, Sc, Web_ui_light_kept, L.
      split; [reflexivity |].
      destruct (Web_ui_scene e (frame_input f) (Web.params (world_app w0))
                  (world_scene w0)) as [-> | [-> | ->]]; rewrite ?L.
      + split; assumption.
      + split; [apply elem_of_union; now right |].
        intros x [I | I]%elem_of_union; [| now apply Sub].
        right. now apply elem_of_singleton in I.
      + split.
        * apply elem_of_difference. split; [exact M |].
          intros I%elem_of_singleton. now apply Hne.
        * intros x [I _]%elem_of_difference. now apply Sub.
    - unfold P. rewrite Web_setup_scene. split; [reflexivity |]. split.
      + apply elem_of_union. right. apply elem_of_union. left.
        now apply elem_of_singleton.
      + intros x [I | [I | I]%elem_of_union]%elem_of_union.
        * right. now apply elem_of_singleton in I.
        * left. now apply elem_of_singleton in I.
        * now apply elem_of_empty in I. }
  exact (proj2 HP).
Qed.

Lemma web_mesh_stays_in_scene_witness :
  created_light engine0 <> mesh_renderable engine0 /\
  Forall (fun f => height (frame_viewport f) <> 0) [frame0; frame0] /\
  exists w : World Web.SandboxApp,
    Web.launch engine0 rnd_exact [frame0; frame0] = Some w /\
    mesh_renderable engine0 ∈ world_scene w /\
    (forall x, x ∈ world_scene w ->
               x = mesh_renderable engine0 \/ x = created_light engine0).
Proof.
  assert (N : created_light engine0 <> mesh_renderable engine0) by discriminate.
  assert (H : Forall (fun f => height (frame_viewport f) <> 0) [frame0; frame0]).
  { repeat constructor; simpl; lia. }
  exact (conj N (conj H (web_mesh_stays_in_scene engine0 rnd_exact _ N H))).
Defined.

Lemma filter_edit_legacy_push (mi : MaterialInstance) (p : Legacy.SandboxParameters) :
  List.filter is_scene_edit (Legacy.push_material mi p) = [].
Proof.
  unfold Legacy.push_material.
  destruct (Legacy.currentMaterialModel p =? MATERIAL_MODEL_UNLIT),
           (Legacy.currentMaterialModel p =? MATERIAL_MODEL_LIT),
           (negb (Legacy.currentBlending p =? BLENDING_OPAQUE)),
           (Legacy.currentMaterialModel p =? MATERIAL_MODEL_SUBSURFACE),
           (Legacy.currentMaterialModel p =? MATERIAL_MODEL_CLOTH); reflexivity.
Qed.

Lemma Legacy_run_frame_eq
    (rnd : Q -> Q) (f : Frame) (w w' : World Legacy.SandboxApp) :
  run_frame (Legacy.animate rnd) Legacy.ui_app f w = Some w' ->
  world_scene w' = world_scene w /\
  world_previous w' = init_previous (world_previous w) (frame_now f).
Proof.
  unfold run_frame, Legacy.animate.
  destruct (set_projection rnd (frame_viewport f)) as [proj |] eqn:P; [| discriminate].
  unfold Legacy.ui_app. rewrite Legacy_ui_eq. intros [= <-].
  split; [| reflexivity].
  change (scene_run
            ([proj; setTransform (frame_now f)] ++
             Legacy.push_material AppMi
               (Legacy.ui_panel (frame_input f) (Legacy.params (world_app w))))
            (world_scene w) = world_scene w).
  apply scene_run_no_edit.
  rewrite List.filter_app, filter_edit_legacy_push, app_nil_r.
  rewrite set_projection_eq in P.
  destruct (height (frame_viewport f) =? 0); [discriminate |].
  injection P as <-. reflexivity.
Qed.

Lemma Web_run_frame_previous
    (e : Engine) (rnd : Q -> Q) (f : Frame) (w w' : World Web.SandboxApp) :
  run_frame (Web.animate rnd) (Web.ui_app e) f w = Some w' ->
  world_previous w' = init_previous (world_previous w) (frame_now f).
Proof.
  unfold run_frame, Web.animate.
  destruct (set_projection rnd (frame_viewport f)) as [proj |]; [| discriminate].
  rewrite Web_ui_app_eq. now intros [= <-].
Qed.

(** X12: in the self-contained sandbox no frame touches the scene: over any
    frames with a viewport of nonzero height the loop returns with the scene
    holding exactly the mesh and the sun that [setup] added, whatever the
    "enabled" checkbox says. *)
Theorem legacy_scene_is_fixed
    (e : Engine) (rnd : Q -> Q) (fs : list Frame) :
  Forall (fun f => height (frame_viewport f) <> 0) fs ->
  exists w : World Legacy.SandboxApp,
    Legacy.launch e rnd fs = Some w /\
    (forall x, x ∈ world_scene w <-> x = mesh_renderable e \/ x = created_entity e).
Proof.
  intros Hfs.
  destruct (run_log (Legacy.setup e) (Legacy.animate rnd) Legacy.ui_app
              (Legacy_animate_defined rnd) Legacy.app0 fs Hfs) as (w & R & _).
  exists w. split; [exact R |].
  assert (S : world_scene w =
              {[ created_entity e ]} ∪ ({[ mesh_renderable e ]} ∪ ∅)).
  { apply (run_frames_invariant (Legacy.animate rnd) Legacy.ui_app
             (fun w => world_scene w =
                       {[ created_entity e ]} ∪ ({[ mesh_renderable e ]} ∪ ∅)))
      with (fs := fs) (w := run_setup (Legacy.setup e) Legacy.app0); [| | exact R].
    - intros f w0 w1 H0 F. apply Legacy_run_frame_eq in F as [Sc _].
      now rewrite Sc.
    - reflexivity. }
  intros x. rewrite S. split.
  - intros [I | [I | I]%elem_of_union]%elem_of_union.
    + right. now apply elem_of_singleton in I.
    + left. now apply elem_of_singleton in I.
    + now apply elem_of_empty in I.
  - intros [-> | ->].
    + apply elem_of_union. right. apply elem_of_union. left. now apply elem_of_singleton.
    + apply elem_of_union. left. now apply elem_of_singleton.
Qed.

Lemma legacy_scene_is_fixed_witness :
  Forall (fun f => height (frame_viewport f) <> 0) [frame0; frame0] /\
  exists w : World Legacy.SandboxApp,
    Legacy.launch engine0 rnd_exact [frame0; frame0] = Some w /\
    (forall x, x ∈ world_scene w <->
               x = mesh_renderable engine0 \/ x = created_entity engine0).
Proof.
  assert (H : Forall (fun f => height (frame_viewport f) <> 0) [frame0; frame0]).
  { repeat constructor; simpl; lia. }
  exact (conj H (legacy_scene_is_fixed engine0 rnd_exact _ H)).
Defined.

Lemma init_previous_kept (t now : Q) : init_previous (Some t) now = Some t.
Proof. reflexivity. Qed.

(** X13: [animate]'s static [previous] takes the time of the first frame
    and is never written again: after any run of at least one frame, in
    either file, it still holds the first frame's [now]. *)
Theorem previous_keeps_first_frame_time
    (e : Engine) (rnd : Q -> Q) (f : Frame) (fs : list Frame) :
  Forall (fun f => height (frame_viewport f) <> 0) (f :: fs) ->
  exists (wl : World Legacy.SandboxApp) (ww : World Web.SandboxApp),
    Legacy.launch e rnd (f :: fs) = Some wl /\
    Web.launch e rnd (f :: fs) = Some ww /\
    world_previous wl = Some (frame_now f) /\
    world_previous ww = Some (frame_now f).
Proof.
  intros Hfs.
  destruct (run_log (Legacy.setup e) (Legacy.animate rnd) Legacy.ui_app
              (Legacy_animate_defined rnd) Legacy.app0 (f :: fs) Hfs) as (wl & Rl & _).
  destruct (run_log (Web.setup e) (Web.animate rnd) (Web.ui_app e)
              (Web_animate_defined rnd) Web.app0 (f :: fs) Hfs) as (ww & Rw & _).
  exists wl, ww. split; [exact Rl |]. split; [exact Rw |]. split.
  - unfold run in Rl. simpl in Rl.
    destruct (run_frame (Legacy.animate rnd) Legacy.ui_app f
                (run_setup (Legacy.setup e) Legacy.app0)) as [w1 |] eqn:F;
      [| discriminate].
    apply Legacy_run_frame_eq in F as [_ Pr].
    apply (run_frames_invariant (Legacy.animate rnd) Legacy.ui_app
             (fun w => world_previous w = Some (frame_now f)))
      with (fs := fs) (w := w1); [| exact Pr | exact Rl].
    intros f' w0 w' H0 F'. apply Legacy_run_frame_eq in F' as [_ Pr'].
    now rewrite Pr', H0.
  - unfold run in Rw. simpl in Rw.
    destruct (run_frame (Web.animate rnd) (Web.ui_app e) f
                (run_setup (Web.setup e) Web.app0)) as [w1 |] eqn:F;
      [| discriminate].
    apply Web_run_frame_previous in F.
    apply (run_frames_invariant (Web.animate rnd) (Web.ui_app e)
             (fun w => world_previous w = Some (frame_now f)))
      with (fs := fs) (w := w1); [| exact F | exact Rw].
    intros f' w0 w' H0 F'. apply Web_run_frame_previous in F'.
    now rewrite F', H0.
Qed.

Lemma previous_keeps_first_frame_time_witness :
  Forall (fun f => height (frame_viewport f) <> 0) [frame0; frame0] /\
  exists (wl : World Legacy.SandboxApp) (ww : World Web.SandboxApp),
    Legacy.launch engine0 rnd_exact [frame0; frame0] = Some wl /\
    Web.launch engine0 rnd_exact [frame0; frame0] = Some ww /\
    world_previous wl = Some (frame_now frame0) /\
    world_previous ww = Some (frame_now frame0).
Proof.
  assert (H : Forall (fun f => height (frame_viewport f) <> 0) [frame0; frame0]).
  { repeat constructor; simpl; lia. }
  exact (conj H (previous_keeps_first_frame_time engine0 rnd_exact _ _ H)).
Defined.

(** ** The direction of the field of view, by the sides of the viewport *)

Section Sides.
Variable rnd : Q -> Q.
Hypothesis rnd_monotone : forall a b : Q, (a <= b)%Q -> (rnd a <= rnd b)%Q.
Hypothesis rnd_one : (rnd 1 == 1)%Q.
Hypothesis rnd_below_one :
  (rnd (1 - (1 # 4294967296)) == 1 - (1 # 4294967296))%Q.

(** X14: for a viewport of 32-bit sides with nonzero height, the direction
    handed to [setProjection] is HORIZONTAL exactly when the viewport is
    narrower than it is high, and VERTICAL for a square or a wider one: the
    rounding of the quotient never flips the comparison, however close the
    two sides are. *)
Theorem projection_direction_by_sides (vp : Viewport) :
  0 <= width vp <= UINT32_MAX ->
  0 < height vp <= UINT32_MAX ->
  set_projection rnd vp =
  Some (Camera_setProjection 45
          (rnd (inject_Z (width vp) / inject_Z (height vp))%Q) (1 # 10) 50
          (if width vp <? height vp then HORIZONTAL else VERTICAL)).
Proof.
  intros _ Hh. rewrite set_projection_eq.
  destruct (Z.eqb_spec (height vp) 0) as [E | _]; [lia |].
  pose proof (rounded_ratio_lt_1_iff rnd rnd_monotone rnd_one rnd_below_one
                (width vp) (height vp) Hh) as R.
  pose proof (ratio_lt_1_iff (width vp) (height vp) (proj1 Hh)) as I.
  destruct (Qlt_le_dec (rnd (inject_Z (width vp) / inject_Z (height vp))) 1) as [L | L];
    destruct (Z.ltb_spec (width vp) (height vp)) as [W | W]; try reflexivity.
  - apply R, I in L. lia.
  - apply I, R in W. lra.
Qed.
End Sides.

Lemma projection_direction_by_sides_witness :
  (0 <= width {| width := 4294967294; height := 4294967295 |} <= UINT32_MAX) /\
  (0 < height {| width := 4294967294; height := 4294967295 |} <= UINT32_MAX) /\
  set_projection rnd_exact {| width := 4294967294; height := 4294967295 |} =
  Some (Camera_setProjection 45
          (rnd_exact (inject_Z 4294967294 / inject_Z 4294967295)%Q) (1 # 10) 50
          HORIZONTAL).
Proof.
  assert (Hw : 0 <= width {| width := 4294967294; height := 4294967295 |} <= UINT32_MAX)
    by (unfold UINT32_MAX; simpl; lia).
  assert (Hh : 0 < height {| width := 4294967294; height := 4294967295 |} <= UINT32_MAX)
    by (unfold UINT32_MAX; simpl; lia).
  refine (conj Hw (conj Hh
            (projection_direction_by_sides rnd_exact _ _ _
               {| width := 4294967294; height := 4294967295 |} Hw Hh))).
  - intros a b H. exact H.
  - reflexivity.
  - reflexivity.
Defined.

(** ** The bindings the shader reads *)

(** X15: the shader reads five of its sixteen texture slots: uTexture[1],
    uTexture[2], uTextureArray[3], uTextureCube[1] and uTexture3D[2].  Two
    sets of bindings that agree on these and on the sampler give the same
    FragColor, whatever is bound to the other slots. *)
Theorem fragment_ignores_unused_bindings
    {S : Type} (u u' : Shader.Uniforms S) (vTex : Shader.vec2) (vTex3 : Shader.vec3) :
  Shader.uSampler u = Shader.uSampler u' ->
  Shader.uTexture u 1%nat = Shader.uTexture u' 1%nat ->
  Shader.uTexture u 2%nat = Shader.uTexture u' 2%nat ->
  Shader.uTextureArray u 3%nat = Shader.uTextureArray u' 3%nat ->
  Shader.uTextureCube u 1%nat = Shader.uTextureCube u' 1%nat ->
  Shader.uTexture3D u 2%nat = Shader.uTexture3D u' 2%nat ->
  Shader.main u vTex vTex3 = Shader.main u' vTex vTex3.
Proof.
  intros Hs H1 H2 Ha Hc H3.
  unfold Shader.main, Shader._95. now rewrite Hs, H1, H2, Ha, Hc, H3.
Qed.

Lemma fragment_ignores_unused_bindings_witness :
  Shader.texture (Shader.uTexture (Shader.flat_uniforms 0) 0%nat tt) (Shader.Vec2 0 0) <>
  Shader.texture (Shader.uTexture (Shader.flat_uniforms 5) 0%nat tt) (Shader.Vec2 0 0) /\
  Shader.main (Shader.flat_uniforms 0) (Shader.Vec2 0 0) (Shader.Vec3 0 0 0) =
  Shader.main (Shader.flat_uniforms 5) (Shader.Vec2 0 0) (Shader.Vec3 0 0 0).
Proof.
  split; [discriminate |].
  exact (fragment_ignores_unused_bindings (Shader.flat_uniforms 0) (Shader.flat_uniforms 5)
           (Shader.Vec2 0 0) (Shader.Vec3 0 0 0)
           eq_refl eq_refl eq_refl eq_refl eq_refl eq_refl).
Defined.

Lemma inverse_of_size (n : Z) : 1 <= n -> (0 < 1 / inject_Z n /\ 1 / inject_Z n <= 1)%Q.
Proof.
  intros H.
  assert (P : (0 < inject_Z n)%Q) by (apply inject_Z_pos; lia).
  assert (G : (1 <= inject_Z n)%Q).
  { change 1%Q with (inject_Z 1). now rewrite <- Zle_Qle. }
  split.
  - apply Qlt_shift_div_l; [exact P | lra].
  - apply Qle_shift_div_r; [exact P | lra].
Qed.

(** X16: when uTexture[1] at level 0 and uTexture[2] at level 1 are at
    least one texel wide and high, the coordinate at which the three 2D
    samples are taken lies strictly beyond vTex and at most 2 beyond it, in
    each component. *)
Theorem sample_coordinate_offset_bounds
    {S : Type} (u : Shader.Uniforms S) (vTex : Shader.vec2) :
  1 <= Shader.i2x (Shader.textureSize (Shader.uTexture u 1%nat (Shader.uSampler u)) 0) ->
  1 <= Shader.i2y (Shader.textureSize (Shader.uTexture u 1%nat (Shader.uSampler u)) 0) ->
  1 <= Shader.i2x (Shader.textureSize (Shader.uTexture u 2%nat (Shader.uSampler u)) 1) ->
  1 <= Shader.i2y (Shader.textureSize (Shader.uTexture u 2%nat (Shader.uSampler u)) 1) ->
  (Shader.v2x vTex < Shader.v2x (Shader._95 u vTex) /\
   Shader.v2x (Shader._95 u vTex) <= Shader.v2x vTex + 2 /\
   Shader.v2y vTex < Shader.v2y (Shader._95 u vTex) /\
   Shader.v2y (Shader._95 u vTex) <= Shader.v2y vTex + 2)%Q.
Proof.
  intros X1 Y1 X2 Y2.
  apply inverse_of_size in X1 as [? ?], Y1 as [? ?], X2 as [? ?], Y2 as [? ?].
  unfold Shader._95, Shader.add2, Shader.div2, Shader.vec2_of_float,
    Shader.vec2_of_ivec2.
  cbn [Shader.v2x Shader.v2y].
  repeat split; lra.
Qed.

Lemma sample_coordinate_offset_bounds_witness :
  (0 < Shader.v2x (Shader._95 (Shader.flat_uniforms 0) (Shader.Vec2 0 0)) /\
   Shader.v2x (Shader._95 (Shader.flat_uniforms 0) (Shader.Vec2 0 0)) <= 0 + 2)%Q.
Proof.
  pose proof (sample_coordinate_offset_bounds (Shader.flat_uniforms 0) (Shader.Vec2 0 0)
                ltac:(simpl; lia) ltac:(simpl; lia) ltac:(simpl; lia) ltac:(simpl; lia))
    as (A & B & _).
  exact (conj A B).
Defined.
